(** * Wave Smart backend: the session state machine of [server.js]

    The server keeps one process-wide object [sessions] that maps a session id
    to a session record.  Three actors touch it: the web client ([POST /api],
    [GET /api]), the operator whose button presses arrive on [POST /webhook],
    and two timers (the periodic expiry sweep and the delayed revert scheduled
    by a "wrong PIN" decision).

    Node runs every handler on one thread, but an [async] handler gives up
    control at every [await].  The embedding keeps that granularity: a handler
    runs up to its first [await], the rest of it is parked as a continuation,
    and any other event may run before the continuation is resumed.  Session
    records are JavaScript objects, so a parked handler holds a reference to
    the record it read, not a copy and not the id: the records live in a heap
    and [sessions] maps ids to heap locations.

    Scope of the embedding:
    - [sessions] is a finite map over its own keys.  The properties a plain
      object inherits from [Object.prototype] (["constructor"], ["__proto__"],
      ...) are not part of it.
    - Request fields are strings or absent.
    - The Telegram calls are the environment: what [tgSend] returns is an
      input of the step that resumes the handler, and the texts of the
      messages are not modelled, except the answer given to the operator.
    - Time is one clock in milliseconds, read by [Date.now()] and by the
      timers.  A timeout may fire late, never early.  The sweep may run at
      any time, which includes every ten minutes. *)

From Stdlib Require Import ZArith Ascii.
From stdpp Require Import gmap strings list fin_maps.

Local Open Scope Z_scope.

(** ** JavaScript values

    Request fields are strings, or absent ([undefined], here [None]). *)

(** Truthiness of a string-or-undefined value: [undefined] and the empty
    string are falsy. *)
Definition truthy (v : option string) : bool :=
  match v with
  | Some s => negb (String.eqb s "")
  | None => false
  end.

(** [a || b]. *)
Definition js_or (a b : option string) : option string :=
  if truthy a then a else b.

(** The property key [obj[v]] looks up: [undefined] is coerced to the
    string ["undefined"]. *)
Definition property_key (v : option string) : string :=
  default "undefined" v.

Definition is_colon (c : Ascii.ascii) : bool := Ascii.eqb c ":"%char.

Definition prepend (c : Ascii.ascii) (parts : list string) : list string :=
  match parts with
  | h :: t => String c h :: t
  | [] => [String c EmptyString]
  end.

(** [s.split('::')]. *)
Fixpoint split (s : string) : list string :=
  match s with
  | EmptyString => [EmptyString]
  | String c rest =>
      match rest with
      | String c' rest' =>
          if is_colon c && is_colon c' then EmptyString :: split rest'
          else prepend c (split rest)
      | EmptyString => prepend c (split rest)
      end
  end.

(** ** Session records *)

Record Session : Type := mkSession {
  firstName : string;
  lastName : string;
  phone : option string;
  pin : option string;
  status : string;
  createdAt : Z;
  ip : string;
  msgId : option Z;
  otpMsgId : option Z;
  otp : option string;
  otpAt : option Z;
}.

Definition set_pin (v : option string) (s : Session) : Session :=
  mkSession (firstName s) (lastName s) (phone s) v (status s) (createdAt s)
            (ip s) (msgId s) (otpMsgId s) (otp s) (otpAt s).

Definition set_status (v : string) (s : Session) : Session :=
  mkSession (firstName s) (lastName s) (phone s) (pin s) v (createdAt s)
            (ip s) (msgId s) (otpMsgId s) (otp s) (otpAt s).

Definition set_msgId (v : option Z) (s : Session) : Session :=
  mkSession (firstName s) (lastName s) (phone s) (pin s) (status s) (createdAt s)
            (ip s) v (otpMsgId s) (otp s) (otpAt s).

Definition set_otpMsgId (v : option Z) (s : Session) : Session :=
  mkSession (firstName s) (lastName s) (phone s) (pin s) (status s) (createdAt s)
            (ip s) (msgId s) v (otp s) (otpAt s).

Definition set_otp (v : option string) (at_ : Z) (s : Session) : Session :=
  mkSession (firstName s) (lastName s) (phone s) (pin s) (status s) (createdAt s)
            (ip s) (msgId s) (otpMsgId s) v (Some at_).

(** ** Server state *)

Abbreviation loc := nat (only parsing).

(** A handler parked at an [await].  Only what the rest of the handler still
    uses is kept: the [session] reference it holds, or the [sessionId] string
    the revert closure captures.  The webhook branches other than 'wrong_pin'
    only send messages after their first [await]; they are done, as far as the
    store goes, when they reach it, and are not parked. *)
Inductive Cont : Type :=
  | KLogin (session : loc) (sessionId : string)
      (* login_attempt, awaiting tgSend *)
  | KOtp (session : loc)
      (* otp_entered, awaiting tgSend *)
  | KResend (session : loc)
      (* otp_resend, awaiting tgSend *)
  | KLoan
      (* loan_application, awaiting tgSend *)
  | KWrongPinAnswer (sessionId : string)
      (* webhook wrong_pin, awaiting tgAnswerCallback *)
  | KWrongPinEdit (sessionId : string).
      (* webhook wrong_pin, awaiting tgEditMessage *)

Record Server : Type := mkServer {
  sessions : gmap string loc;      (* const sessions = {} *)
  heap : list Session;             (* the session objects *)
  timers : list (Z * string);      (* setTimeout: due time, captured sessionId *)
  awaiting : list Cont;            (* handlers parked at an await *)
  clock : Z;                       (* Date.now(), in milliseconds *)
}.

Definition init (t0 : Z) : Server := mkServer ∅ [] [] [] t0.

(** [sessions[key]] together with the record it refers to. *)
Definition session_at (st : Server) (key : string) : option (loc * Session) :=
  l ← sessions st !! key; s ← heap st !! l; Some (l, s).

(** A field assignment through a reference. *)
Definition write (l : loc) (f : Session → Session) (st : Server) : Server :=
  mkServer (sessions st) (alter f l (heap st)) (timers st) (awaiting st) (clock st).

(** [sessions[id] = { ... }]: a new object, bound to [id]. *)
Definition bind_new (id : string) (s : Session) (st : Server) : Server :=
  mkServer (<[id := length (heap st)]> (sessions st)) (heap st ++ [s])
           (timers st) (awaiting st) (clock st).

Definition park (k : Cont) (st : Server) : Server :=
  mkServer (sessions st) (heap st) (timers st) (awaiting st ++ [k]) (clock st).

Definition unpark (i : nat) (st : Server) : Server :=
  mkServer (sessions st) (heap st) (timers st) (delete i (awaiting st)) (clock st).

(** [setTimeout(callback, delay)], the callback closing over [sessionId]. *)
Definition setTimeout (delay : Z) (sessionId : string) (st : Server) : Server :=
  mkServer (sessions st) (heap st) (timers st ++ [(clock st + delay, sessionId)])
           (awaiting st) (clock st).

Definition with_sessions (m : gmap string loc) (st : Server) : Server :=
  mkServer m (heap st) (timers st) (awaiting st) (clock st).

Definition with_timers (ts : list (Z * string)) (st : Server) : Server :=
  mkServer (sessions st) (heap st) ts (awaiting st) (clock st).

Definition advance (d : Z) (st : Server) : Server :=
  mkServer (sessions st) (heap st) (timers st) (awaiting st) (clock st + d).

(** ** Requests and responses *)

(** The body of [POST /api], by its [action] field. *)
Inductive ApiBody : Type :=
  | login_attempt (firstName lastName phone pin sessionId : option string)
  | otp_entered (sessionId otp : option string)
  | otp_resend (sessionId : option string)
  | reset_otp (sessionId : option string)
  | loan_application
  | unknown_action.

(** One row of the admin listing. *)
Record SessionView : Type := mkView {
  view_sessionId : string;
  view_firstName : string;
  view_lastName : string;
  view_phone : option string;
  view_pin : option string;
  view_otp : option string;
  view_status : string;
  view_ip : string;
  view_createdAt : Z;
}.

Inductive Response : Type :=
  | JsonSession (sessionId : string)   (* { success: true, data: { sessionId } } *)
  | JsonOk                             (* { success: true } *)
  | JsonNotFound                       (* { success: false, error: 'Session not found' } *)
  | JsonStatus (status : string)       (* { success: true, status } *)
  | BadRequest                         (* 400 *)
  | Forbidden                          (* 403 { success: false, error: 'Forbidden' } *)
  | JsonSessions (count : nat) (list : list SessionView).

(** The text passed to [tgAnswerCallback]. *)
Inductive Ack : Type :=
  | SessionExpired      (* 'Session expired' *)
  | AlreadyActioned     (* 'Already actioned' *)
  | MovedToOtp          (* 'User moved to OTP screen' *)
  | WrongPinSent        (* 'Wrong PIN sent to user' *)
  | OtpApproved         (* 'OTP approved' *)
  | WrongCodeSent       (* 'Wrong code sent to user' *)
  | UnknownAction.      (* 'Unknown action' *)

(** What the result of [tgSend] is used for: [Some id] when [sent && sent.ok],
    with [id] the [sent.result.message_id]. *)
Definition Sent := option Z.

(** ** Inline keyboards: the callback data behind each button *)

Definition loginKeyboard (sessionId : string) : list string :=
  ["approve::" +:+ sessionId; "wrong_pin::" +:+ sessionId].

Definition otpKeyboard (sessionId : string) : list string :=
  ["approve_otp::" +:+ sessionId; "wrong_code::" +:+ sessionId].

(** ** [POST /api], up to the first [await]

    [ip] is the caller's address as the handler computes it, [uuid] the value
    [uuidv4()] returns if it is called.  The response is [None] while the
    handler is parked. *)
Definition api_post (body : ApiBody) (ip uuid : string) (st : Server)
  : option Response * Server :=
  match body with
  | login_attempt fn ln ph pn sid =>
      let session := if truthy sid then session_at st (property_key sid) else None in
      match session with
      | Some (l, s) =>
          if decide (status s = "pending") then
            (None, park (KLogin l (property_key sid)) (write l (set_pin pn) st))
          else
            (None, park (KLogin (length (heap st)) uuid)
                     (bind_new uuid
                        (mkSession (default "Unknown" fn) (default "User" ln) ph pn
                                   "pending" (clock st) ip None None None None) st))
      | None =>
          (None, park (KLogin (length (heap st)) uuid)
                   (bind_new uuid
                      (mkSession (default "Unknown" fn) (default "User" ln) ph pn
                                 "pending" (clock st) ip None None None None) st))
      end
  | otp_entered sid v =>
      match session_at st (property_key sid) with
      | None => (Some JsonNotFound, st)
      | Some (l, _) => (None, park (KOtp l) (write l (set_otp v (clock st)) st))
      end
  | otp_resend sid =>
      match session_at st (property_key sid) with
      | None => (Some JsonNotFound, st)
      | Some (l, _) => (None, park (KResend l) st)
      end
  | reset_otp sid =>
      match session_at st (property_key sid) with
      | None => (Some JsonNotFound, st)
      | Some (l, _) => (Some JsonOk, write l (set_status "otp_pending") st)
      end
  | loan_application => (None, park KLoan st)
  | unknown_action => (Some BadRequest, st)
  end.

(** ** [GET /api] *)

Definition check_status (sessionId : option string) (st : Server) : Response :=
  match session_at st (property_key sessionId) with
  | None => JsonNotFound
  | Some (_, s) => JsonStatus (status s)
  end.

Definition api_get (action sessionId : option string) (st : Server) : Response :=
  if decide (action = Some "check_status") then check_status sessionId st
  else BadRequest.

(** ** [POST /webhook], up to the first [await]

    [callback_query] is [update.callback_query.data], absent when the update
    carries no callback query (the handler returns) or no data (it throws on
    [split], before it has touched anything).  The answer text is handed to
    [tgAnswerCallback] before the handler parks. *)

(** The [switch (action)] statement, for the [session] found under
    [sessionId]: [l] is the reference, [s] the record it holds. *)
Definition decision (action : option string) (sessionId : string)
    (l : loc) (s : Session) (st : Server) : option Ack * Server :=
  if decide (action = Some "approve") then
    if decide (status s = "pending")
    then (Some MovedToOtp, write l (set_status "approved") st)
    else (Some AlreadyActioned, st)
  else if decide (action = Some "wrong_pin") then
    if decide (status s = "pending")
    then (Some WrongPinSent,
          park (KWrongPinAnswer sessionId) (write l (set_status "wrong_pin") st))
    else (Some AlreadyActioned, st)
  else if decide (action = Some "approve_otp") then
    (Some OtpApproved, write l (set_status "continue") st)
  else if decide (action = Some "wrong_code") then
    (Some WrongCodeSent, write l (set_status "wrong_code") st)
  else (Some UnknownAction, st).

Definition webhook (callback_query : option string) (st : Server)
  : option Ack * Server :=
  match callback_query with
  | None => (None, st)
  | Some data =>
      let parts := split data in
      let action := parts !! 0%nat in
      let sessionId := property_key (parts !! 1%nat) in
      match session_at st sessionId with
      | None => (Some SessionExpired, st)
      | Some (l, s) => decision action sessionId l s st
      end
  end.

(** ** The rest of a parked handler, run when the awaited call settles *)

Definition resume (i : nat) (sent : Sent) (st : Server) : option Response * Server :=
  match awaiting st !! i with
  | None => (None, st)
  | Some k =>
      let st' := unpark i st in
      match k with
      | KLogin l sid =>
          (Some (JsonSession sid),
           match sent with
           | Some id => write l (set_msgId (Some id)) st'
           | None => st'
           end)
      | KOtp l =>
          (Some JsonOk,
           write l (set_status "otp_pending")
             match sent with
             | Some id => write l (set_otpMsgId (Some id)) st'
             | None => st'
             end)
      | KResend l => (Some JsonOk, write l (set_status "otp_pending") st')
      | KLoan => (Some JsonOk, st')
      | KWrongPinAnswer sid => (None, park (KWrongPinEdit sid) st')
      | KWrongPinEdit sid => (None, setTimeout 2000 sid st')
      end
  end.

(** ** Timers *)

(** The revert closure:
    [if (sessions[sessionId]) sessions[sessionId].status = 'pending']. *)
Definition revert (sessionId : string) (st : Server) : Server :=
  match session_at st sessionId with
  | Some (l, _) => write l (set_status "pending") st
  | None => st
  end.

(** The [i]-th outstanding timeout fires. *)
Definition fire (i : nat) (st : Server) : Server :=
  match timers st !! i with
  | Some (_, sessionId) => revert sessionId (with_timers (delete i (timers st)) st)
  | None => st
  end.

Definition TTL : Z := 30 * 60 * 1000.

(** The body of the [setInterval] callback: one pass over
    [Object.entries(sessions)], deleting from [sessions] as it goes. *)
Definition sweep_entry (objects : list Session) (cutoff : Z)
    (m : gmap string loc) (entry : string * loc) : gmap string loc :=
  match objects !! entry.2 with
  | Some s => if decide (createdAt s < cutoff) then delete entry.1 m else m
  | None => m
  end.

Definition sweep (st : Server) : Server :=
  let cutoff := clock st - TTL in
  with_sessions
    (foldl (sweep_entry (heap st) cutoff) (sessions st) (map_to_list (sessions st)))
    st.

(** ** [GET /api/sessions] *)

Definition DEFAULT_ADMIN_SECRET : string := "wavesmart2026".

Definition view (entry : string * Session) : SessionView :=
  let s := entry.2 in
  mkView entry.1 (firstName s) (lastName s) (phone s) (pin s)
         (js_or (otp s) None) (status s) (ip s) (createdAt s).

Definition entries (st : Server) : list (string * Session) :=
  omap (λ e : string * loc, s ← heap st !! e.2; Some (e.1, s))
       (map_to_list (sessions st)).

(** [query] is [req.query.secret], [header] is [req.headers['x-admin-secret']],
    [env] is [process.env.ADMIN_SECRET]. *)
Definition admin_sessions (query header env : option string) (st : Server) : Response :=
  let secret := js_or query header in
  let ADMIN_SECRET := js_or env (Some DEFAULT_ADMIN_SECRET) in
  if decide (secret = ADMIN_SECRET) then
    let list := view <$> entries st in
    JsonSessions (length list) list
  else Forbidden.

(** ** Events *)

Inductive Event : Type :=
  | PostApi (body : ApiBody) (ip uuid : string)
  | PostWebhook (callback_query : option string)
  | Resume (i : nat) (sent : Sent)
  | Fire (i : nat)
  | Sweep
  | Tick (d : Z).

Definition step (ev : Event) (st : Server) : Server :=
  match ev with
  | PostApi body ip uuid => (api_post body ip uuid st).2
  | PostWebhook q => (webhook q st).2
  | Resume i sent => (resume i sent st).2
  | Fire i => fire i st
  | Sweep => sweep st
  | Tick d => advance d st
  end.

Definition run (evs : list Event) (st : Server) : Server :=
  foldl (λ st ev, step ev st) st evs.

(** The session ids a pending revert will write to. *)
Definition cont_target (k : Cont) : option string :=
  match k with
  | KWrongPinAnswer sid | KWrongPinEdit sid => Some sid
  | _ => None
  end.

Definition reverts (st : Server) : list string :=
  (timers st).*2 ++ omap cont_target (awaiting st).

(** When the environment can produce an event: a timeout fires no earlier
    than its due time, time does not run backwards, and [uuidv4()] returns an
    id that is not in use. *)
Definition enabled (ev : Event) (st : Server) : bool :=
  match ev with
  | PostApi _ _ uuid =>
      bool_decide (sessions st !! uuid = None) && bool_decide (uuid ∉ reverts st)
  | Fire i =>
      match timers st !! i with
      | Some (due, _) => bool_decide (due ≤ clock st)
      | None => false
      end
  | Tick d => bool_decide (0 ≤ d)
  | _ => true
  end.

Fixpoint valid (evs : list Event) (st : Server) : bool :=
  match evs with
  | [] => true
  | ev :: evs' => enabled ev st && valid evs' (step ev st)
  end.
(** ** A handler run to completion

    The awaited call settles before anything else happens: the parked rest of
    the handler is resumed at once. *)

Definition handle_api (body : ApiBody) (ip uuid : string) (sent : Sent) (st : Server)
  : option Response * Server :=
  match api_post body ip uuid st with
  | (Some r, st1) => (Some r, st1)
  | (None, st1) => resume (length (awaiting st)) sent st1
  end.

(** The 'wrong_pin' branch parks twice before it calls [setTimeout]. *)
Definition handle_webhook (callback_query : option string) (st : Server)
  : option Ack * Server :=
  let n := length (awaiting st) in
  let (ack, st1) := webhook callback_query st in
  (ack, (resume n None (resume n None st1).2).2).


(** The test of the sweep on the record an entry refers to:
    [s.createdAt < cutoff]. *)
Definition stale (objects : list Session) (cutoff : Z) (l : loc) : bool :=
  match objects !! l with
  | Some s => bool_decide (createdAt s < cutoff)
  | None => false
  end.

(** The id a request makes [uuidv4()] hand out. *)
Definition issued_by (ev : Event) : option string :=
  match ev with
  | PostApi (login_attempt _ _ _ _ _) _ uuid => Some uuid
  | _ => None
  end.




(** A string without the character [:], as the ids [uuidv4()] returns are. *)
Fixpoint colon_free (s : string) : bool :=
  match s with
  | EmptyString => true
  | String c rest => negb (is_colon c) && colon_free rest
  end.

(** ** The end-to-end scenario

    One client and the operator take turns, each call settling before the
    next: login, operator presses 'Continue', OTP, operator presses 'Wrong
    Code', reset, OTP again, operator presses 'Approve OTP'.  The operator's
    presses send the callback data of the buttons the alerts carried.  The
    result is what the client's poll reads after each step. *)
Definition end_to_end (st : Server) (fn ln ph pn : option string) (ip uuid : string)
    (otp1 otp2 : option string) (m1 m2 m3 : Sent) : list Response :=
  let poll := api_get (Some "check_status") (Some uuid) in
  let st1 := (handle_api (login_attempt fn ln ph pn None) ip uuid m1 st).2 in
  let st2 := (handle_webhook (loginKeyboard uuid !! 0%nat) st1).2 in
  let st3 := (handle_api (otp_entered (Some uuid) otp1) ip uuid m2 st2).2 in
  let st4 := (handle_webhook (otpKeyboard uuid !! 1%nat) st3).2 in
  let st5 := (handle_api (reset_otp (Some uuid)) ip uuid None st4).2 in
  let st6 := (handle_api (otp_entered (Some uuid) otp2) ip uuid m3 st5).2 in
  let st7 := (handle_webhook (otpKeyboard uuid !! 0%nat) st6).2 in
  [poll st1; poll st2; poll st3; poll st4; poll st5; poll st6; poll st7].

(** ** Two concrete histories *)

Definition demo_id : string := "3b241101-e2bb-4255-8caf-4136c566a962".

(** A client logs in and the alert is delivered. *)
Definition demo_login : list Event :=
  [PostApi (login_attempt (Some "Awa") (Some "Diop") (Some "771234567") (Some "1234") None)
     "41.82.0.1" demo_id;
   Resume 0 (Some 11)].

Definition demo_otp : list Event :=
  [PostApi (otp_entered (Some demo_id) (Some "54321")) "41.82.0.1"
     "8d3f0c52-7a1e-4b69-9c0d-2f5e6a7b8c9d";
   Resume 0 (Some 12)].

(** The operator approves the login, the client submits an OTP, the operator
    rejects it: the OTP phase is resolved with 'wrong_code'. *)
Definition otp_rejected : list Event :=
  demo_login ++ [PostWebhook (Some ("approve::" +:+ demo_id))] ++ demo_otp
  ++ [PostWebhook (Some ("wrong_code::" +:+ demo_id))].

(** The operator rejects the PIN and the revert is scheduled; within the two
    seconds the client submits an OTP and the operator approves it. *)
Definition approved_during_delay : list Event :=
  demo_login
  ++ [PostWebhook (Some ("wrong_pin::" +:+ demo_id)); Resume 0 None; Resume 0 None; Tick 500]
  ++ demo_otp
  ++ [Tick 500; PostWebhook (Some ("approve_otp::" +:+ demo_id)); Tick 1000].

(** ** Consistency of the store with the pending reverts

    References are in range and no two ids share a record; no session has two
    reverts pending; and a session that is 'pending' has none. *)
Record consistent (st : Server) : Prop := mkConsistent {
  refs_bound : ∀ k l, sessions st !! k = Some l → (l < length (heap st))%nat;
  refs_inj : ∀ k1 k2 l, sessions st !! k1 = Some l → sessions st !! k2 = Some l → k1 = k2;
  reverts_nodup : NoDup (reverts st);
  pending_no_revert :
    ∀ k l s, session_at st k = Some (l, s) → status s = "pending" → k ∉ reverts st;
}.

(** A revert for [sid] is pending, and none of the timeouts that will run it
    is due before [bound]; [bound] is at most two seconds away. *)
Record held_until (bound : Z) (sid : string) (st : Server) : Prop := mkHeld {
  held_consistent : consistent st;
  held_revert : sid ∈ reverts st;
  held_due : ∀ due, (due, sid) ∈ timers st → bound ≤ due;
  held_clock : bound ≤ clock st + 2000;
}.

(** The record of [demo_id] after [demo_login]. *)
Definition demo_session : Session :=
  mkSession "Awa" "Diop" (Some "771234567") (Some "1234") "pending" 0 "41.82.0.1"
            (Some 11) None None None.

(** ** Further vocabulary *)

(** The four actions the buttons carry, in the order
    [loginKeyboard ++ otpKeyboard] lists them. *)
Definition actions : list string :=
  ["approve"; "wrong_pin"; "approve_otp"; "wrong_code"].


(** What a record is created with and no handler assigns again. *)
Definition subject (s : Session) : string * string * option string * string * Z :=
  (firstName s, lastName s, phone s, ip s, createdAt s).

(** A record without its Telegram message handles. *)
Definition forget_handles (s : Session) : Session :=
  set_msgId None (set_otpMsgId None s).

(** A [login_attempt] that finds a 'pending' session under the id it
    carries. *)
Definition resubmits (st : Server) (sessionId : option string) : Prop :=
  truthy sessionId = true ∧
  ∃ l s, session_at st (property_key sessionId) = Some (l, s) ∧ status s = "pending".

(** Every record of [st] is still a record of [st'], with the same
    subject. *)
Definition keeps (st st' : Server) : Prop :=
  ∀ l s, heap st !! l = Some s →
         ∃ s', heap st' !! l = Some s' ∧ subject s' = subject s.

(** ** [POST /api/set_status], the manual override of the first version of
    the server

    [sessionId], [status] and [secret] are the fields of the body, [env] is
    [process.env.ADMIN_SECRET].  The log line after the assignment calls
    [sessionId.slice], which throws when the field is absent; that can only
    happen for a session stored under the key ["undefined"]. *)




(** More concrete histories. *)

Definition second_id : string := "8d3f0c52-7a1e-4b69-9c0d-2f5e6a7b8c9d".

(** The login of [demo_login] is rejected and the revert is scheduled. *)
Definition pin_rejected : list Event :=
  demo_login
  ++ [PostWebhook (Some ("wrong_pin::" +:+ demo_id)); Resume 0 None; Resume 0 None].
(** * Properties *)

#[local] Set Warnings "-clear-no-such-hyp".

Section store_lemmas.
Implicit Types (st : Server) (l : loc) (s : Session) (key : string).

Lemma session_at_Some st key l s :
  session_at st key = Some (l, s) ↔ sessions st !! key = Some l ∧ heap st !! l = Some s.
Proof.
  unfold session_at.
  destruct (sessions st !! key) as [l'|]; simpl; [|naive_solver].
  destruct (heap st !! l') as [s'|] eqn:E; simpl; naive_solver.
Qed.


Lemma session_at_write st key l f :
  session_at (write l f st) key =
  (λ p : loc * Session, (p.1, if decide (p.1 = l) then f p.2 else p.2)) <$> session_at st key.
Proof.
  unfold session_at, write. simpl.
  destruct (sessions st !! key) as [l'|]; simpl; [|done].
  rewrite list_lookup_alter.
  destruct (heap st !! l') as [s'|] eqn:E; repeat case_decide; simplify_eq; simpl;
    rewrite ?E; simpl; repeat case_decide; simplify_eq; done.
Qed.

Lemma session_at_write_eq st key l s f :
  session_at st key = Some (l, s) → session_at (write l f st) key = Some (l, f s).
Proof. intros H. rewrite session_at_write, H. simpl. by rewrite decide_True. Qed.

Lemma resume_parked st k sent :
  resume (length (awaiting st)) sent (park k st) =
  match k with
  | KLogin l sid =>
      (Some (JsonSession sid),
       match sent with Some id => write l (set_msgId (Some id)) st | None => st end)
  | KOtp l =>
      (Some JsonOk,
       write l (set_status "otp_pending")
         match sent with Some id => write l (set_otpMsgId (Some id)) st | None => st end)
  | KResend l => (Some JsonOk, write l (set_status "otp_pending") st)
  | KLoan => (Some JsonOk, st)
  | KWrongPinAnswer sid => (None, park (KWrongPinEdit sid) st)
  | KWrongPinEdit sid => (None, setTimeout 2000 sid st)
  end.
Proof.
  unfold resume. cbn [awaiting park].
  rewrite list_lookup_middle by done.
  replace (unpark (length (awaiting st)) (park k st)) with st; [done|].
  unfold unpark, park. cbn. rewrite (delete_middle _ []), app_nil_r. by destruct st.
Qed.
End store_lemmas.

Section client_actions.
Implicit Types (st : Server) (l : loc) (s : Session).

(** Whatever an [otp_entered] handler reads, its last write through the
    session reference is [status = 'otp_pending']. *)
Lemma resume_otp_status st i l s sent :
  awaiting st !! i = Some (KOtp l) →
  heap st !! l = Some s →
  ∃ s', heap (resume i sent st).2 !! l = Some s' ∧ status s' = "otp_pending" ∧ otp s' = otp s.
Proof.
  intros Hk Hl. unfold resume. rewrite Hk. cbn.
  destruct sent as [id|]; cbn; rewrite !list_lookup_alter, !decide_True by done.
  - rewrite Hl. eauto.
  - rewrite Hl. eauto.
Qed.

Lemma api_post_login_resubmit st sid l s fn ln ph pn ip uuid :
  session_at st sid = Some (l, s) → sid ≠ "" → status s = "pending" →
  api_post (login_attempt fn ln ph pn (Some sid)) ip uuid st =
  (None, park (KLogin l sid) (write l (set_pin pn) st)).
Proof.
  intros Hs Hne Hst. unfold api_post.
  assert (truthy (Some sid) = true) as ->.
  { simpl. by destruct (String.eqb_spec sid ""). }
  change (property_key (Some sid)) with sid. by rewrite Hs, decide_True.
Qed.

Lemma api_post_otp_entered st sid v l s ip uuid :
  session_at st (property_key sid) = Some (l, s) →
  api_post (otp_entered sid v) ip uuid st =
  (None, park (KOtp l) (write l (set_otp v (clock st)) st)).
Proof. intros Hs. unfold api_post. by rewrite Hs. Qed.

Lemma handle_api_otp_entered st sid v l s ip uuid sent :
  session_at st (property_key sid) = Some (l, s) →
  handle_api (otp_entered sid v) ip uuid sent st =
  (Some JsonOk,
   write l (set_status "otp_pending")
     match sent with
     | Some id => write l (set_otpMsgId (Some id)) (write l (set_otp v (clock st)) st)
     | None => write l (set_otp v (clock st)) st
     end).
Proof.
  intros Hs. unfold handle_api. rewrite (api_post_otp_entered _ _ _ _ _ _ _ Hs).
  replace (length (awaiting st))
    with (length (awaiting (write l (set_otp v (clock st)) st))) by done.
  by rewrite resume_parked.
Qed.

(** C6: a login resubmitted for a session in 'pending' stores the new PIN and
    leaves the status 'pending'; an OTP submitted for a session in
    'otp_pending' stores the new OTP and leaves the status 'otp_pending'.  In
    both cases no session is created, and the rest of the record is kept. *)
Theorem resubmission_overwrites_pending_secret st sid l s :
  session_at st sid = Some (l, s) →
  (sid ≠ "" → status s = "pending" →
   ∀ fn ln ph pn ip uuid sent,
     let out := handle_api (login_attempt fn ln ph pn (Some sid)) ip uuid sent st in
     out.1 = Some (JsonSession sid) ∧
     sessions out.2 = sessions st ∧
     ∃ s', session_at out.2 sid = Some (l, s') ∧
           pin s' = pn ∧ status s' = "pending" ∧
           s' = set_msgId (from_option Some (msgId s) sent) (set_pin pn s)) ∧
  (status s = "otp_pending" →
   ∀ v ip uuid sent,
     let out := handle_api (otp_entered (Some sid) v) ip uuid sent st in
     out.1 = Some JsonOk ∧
     sessions out.2 = sessions st ∧
     ∃ s', session_at out.2 sid = Some (l, s') ∧
           otp s' = v ∧ status s' = "otp_pending" ∧ pin s' = pin s).
Proof.
  intros Hs. split.
  - intros Hne Hst fn ln ph pn ip uuid sent. unfold handle_api.
    rewrite (api_post_login_resubmit _ _ _ _ _ _ _ _ _ _ Hs Hne Hst).
    replace (length (awaiting st)) with (length (awaiting (write l (set_pin pn) st))) by done.
    rewrite resume_parked. cbn [fst snd].
    split; [done|]. destruct sent as [id|]; cbn [from_option].
    + split; [done|]. eexists. split.
      { rewrite session_at_write, (session_at_write_eq _ _ _ _ _ Hs). cbn.
        by rewrite decide_True. }
      by destruct s.
    + split; [done|]. eexists. split; [by apply session_at_write_eq|]. by destruct s.
  - intros Hst v ip uuid sent.
    rewrite (handle_api_otp_entered _ (Some sid) _ _ _ _ _ _ Hs). cbn [fst snd].
    split; [done|]. split; [by destruct sent|].
    destruct sent as [id|]; eexists;
      (split; [rewrite !session_at_write, Hs; cbn; by rewrite !decide_True
              |by destruct s]).
Qed.

(** C10: [otp_entered] moves any existing session to 'otp_pending', whatever
    its status was. *)
Theorem otp_entered_forces_otp_pending st sid v ip uuid sent l s :
  session_at st (property_key sid) = Some (l, s) →
  let out := handle_api (otp_entered sid v) ip uuid sent st in
  out.1 = Some JsonOk ∧
  ∃ s', session_at out.2 (property_key sid) = Some (l, s') ∧
        status s' = "otp_pending" ∧ otp s' = v.
Proof.
  intros Hs. rewrite (handle_api_otp_entered _ _ _ _ _ _ _ _ Hs). cbn [fst snd].
  split; [done|].
  destruct sent as [id|]; eexists;
    (split; [rewrite !session_at_write, Hs; cbn; by rewrite !decide_True
            |by destruct s]).
Qed.
End client_actions.

Section expiry.
Implicit Types (st : Server) (l : loc) (s : Session) (m : gmap string loc).

Lemma sweep_entry_lookup objects cutoff m e k :
  sweep_entry objects cutoff m e !! k =
  if decide (e.1 = k ∧ stale objects cutoff e.2 = true) then None else m !! k.
Proof.
  unfold sweep_entry, stale. destruct (objects !! e.2) as [s|].
  - destruct (decide (createdAt s < cutoff)) as [Hlt|Hge].
    + rewrite bool_decide_eq_true_2 by done.
      destruct (decide (e.1 = k)) as [<-|Hne].
      * by rewrite lookup_delete_eq, decide_True.
      * rewrite lookup_delete_ne by done. rewrite decide_False; [done|]. tauto.
    + rewrite bool_decide_eq_false_2 by done. rewrite decide_False; [done|].
      by intros [_ ?].
  - rewrite decide_False; [done|]. by intros [_ ?].
Qed.

(** The keys the loop leaves in place keep their binding; a key is removed as
    soon as one of the visited entries carries it with a stale record. *)
Lemma foldl_sweep_lookup objects cutoff (es : list (string * loc)) m k :
  foldl (sweep_entry objects cutoff) m es !! k =
  if decide (Exists (λ e, e.1 = k ∧ stale objects cutoff e.2 = true) es)
  then None else m !! k.
Proof.
  revert m. induction es as [|e es IH]; intros m; cbn [foldl].
  - rewrite decide_False; [done|]. rewrite Exists_nil. tauto.
  - rewrite IH, sweep_entry_lookup.
    destruct (decide (Exists (λ e, e.1 = k ∧ stale objects cutoff e.2 = true) es))
      as [Hes|Hes].
    + by rewrite decide_True by (apply Exists_cons; by right).
    + destruct (decide (e.1 = k ∧ stale objects cutoff e.2 = true)) as [He|He].
      * by rewrite decide_True by (apply Exists_cons; by left).
      * rewrite decide_False; [done|]. rewrite Exists_cons. tauto.
Qed.

Lemma stale_spec objects cutoff l :
  stale objects cutoff l = true ↔ ∃ s, objects !! l = Some s ∧ createdAt s < cutoff.
Proof.
  unfold stale. destruct (objects !! l) as [s|].
  - rewrite bool_decide_eq_true. naive_solver.
  - naive_solver.
Qed.

Lemma sweep_lookup st k :
  sessions (sweep st) !! k =
  match sessions st !! k with
  | Some l =>
      match heap st !! l with
      | Some s => if decide (TTL < clock st - createdAt s) then None else Some l
      | None => Some l
      end
  | None => None
  end.
Proof.
  unfold sweep. cbn [sessions with_sessions]. rewrite foldl_sweep_lookup.
  destruct (sessions st !! k) as [l|] eqn:Ek.
  - destruct (heap st !! l) as [s|] eqn:El.
    + destruct (decide (TTL < clock st - createdAt s)) as [Hold|Hyoung].
      * rewrite decide_True; [done|]. apply Exists_exists. exists (k, l).
        split; [by apply elem_of_map_to_list|]. split; [done|].
        apply stale_spec. exists s. split; [done|lia].
      * rewrite decide_False; [done|]. rewrite Exists_exists.
        intros ([k' l'] & Hin & Hk & Hst). cbn in *. subst k'.
        apply elem_of_map_to_list in Hin. simplify_eq.
        apply stale_spec in Hst as (s' & Hs' & Hlt). simplify_eq. lia.
    + rewrite decide_False; [done|]. rewrite Exists_exists.
      intros ([k' l'] & Hin & Hk & Hst). cbn in *. subst k'.
      apply elem_of_map_to_list in Hin. simplify_eq.
      apply stale_spec in Hst as (s' & Hs' & Hlt). simplify_eq.
  - rewrite decide_False; [done|]. rewrite Exists_exists.
    intros ([k' l'] & Hin & Hk & _). cbn in *. subst k'.
    apply elem_of_map_to_list in Hin. simplify_eq.
Qed.

Lemma session_at_sweep st sid :
  session_at (sweep st) sid =
  match session_at st sid with
  | Some (l, s) => if decide (TTL < clock st - createdAt s) then None else Some (l, s)
  | None => None
  end.
Proof.
  unfold session_at at 1. rewrite sweep_lookup. unfold session_at.
  change (heap (sweep st)) with (heap st).
  destruct (sessions st !! sid) as [l|]; cbn; [|done].
  destruct (heap st !! l) as [s|] eqn:El; cbn; [|by rewrite El].
  case_decide; cbn; [done|]. by rewrite El.
Qed.

(** C7: the sweep removes a session exactly when its age [now - createdAt]
    exceeds the TTL of 30 minutes.  The test reads no other field, so the
    status plays no part; a session that stays keeps its record, and no
    record is modified. *)
Theorem sweep_evicts_exactly_expired st sid :
  TTL = 1800000 ∧
  heap (sweep st) = heap st ∧
  session_at (sweep st) sid =
  match session_at st sid with
  | Some (l, s) => if decide (TTL < clock st - createdAt s) then None else Some (l, s)
  | None => None
  end.
Proof. split; [done|]. split; [done|]. apply session_at_sweep. Qed.
End expiry.

Section frames.
Implicit Types (st : Server) (l : loc) (s : Session).

Lemma sessions_webhook q st : sessions (webhook q st).2 = sessions st.
Proof. unfold webhook, decision. by repeat case_match. Qed.

Lemma sessions_resume i sent st : sessions (resume i sent st).2 = sessions st.
Proof. unfold resume. by repeat case_match. Qed.

Lemma sessions_fire i st : sessions (fire i st) = sessions st.
Proof. unfold fire, revert. by repeat case_match. Qed.

Lemma sessions_api_post body ip uuid st k :
  issued_by (PostApi body ip uuid) ≠ Some k →
  sessions (api_post body ip uuid st).2 !! k = sessions st !! k.
Proof.
  intros Hk. unfold api_post.
  repeat case_match; simplify_eq; try done;
    cbn; rewrite lookup_insert_ne; try done; by intros ->.
Qed.


End frames.

Section reads.
Implicit Types (st : Server) (l : loc) (s : Session).



End reads.

Section status_enum.
Implicit Types (st : Server) (l : loc) (s : Session).









End status_enum.

Section operator_decisions.
Implicit Types (st : Server) (l : loc) (s : Session).

Example split_button_data :
  split "approve::3b241101-e2bb-4255-8caf-4136c566a962"
  = ["approve"; "3b241101-e2bb-4255-8caf-4136c566a962"].
Proof. reflexivity. Qed.

Example split_no_separator : split "approve" = ["approve"].
Proof. reflexivity. Qed.

Example split_empty : split "" = [""].
Proof. reflexivity. Qed.

Example split_three_colons : split "a:::b" = ["a"; ":b"].
Proof. reflexivity. Qed.

Example split_three_parts : split "a::b::c" = ["a"; "b"; "c"].
Proof. reflexivity. Qed.

Example split_trailing : split "a::" = ["a"; ""].
Proof. reflexivity. Qed.

Lemma split_colon_free u : colon_free u = true → split u = [u].
Proof.
  induction u as [|c u IH]; [done|]. cbn [colon_free split].
  intros [Hc Hu]%andb_true_iff. apply negb_true_iff in Hc. rewrite Hc. cbn.
  rewrite (IH Hu). by destruct u.
Qed.

Lemma split_callback_data a u :
  colon_free a = true → split (a +:+ "::" +:+ u) = a :: split u.
Proof.
  induction a as [|c a IH]; [done|]. cbn [colon_free].
  intros [Hc Ha]%andb_true_iff. apply negb_true_iff in Hc.
  change (String c a +:+ "::" +:+ u) with (String c (a +:+ "::" +:+ u)).
  cbn [split]. rewrite Hc. cbn [andb]. rewrite (IH Ha).
  by destruct a.
Qed.

(** The callback data behind a button parses back into the action and the
    session id it was built from. *)
Lemma split_button a sid :
  colon_free a = true → colon_free sid = true → split (a +:+ "::" +:+ sid) = [a; sid].
Proof. intros Ha Hs. by rewrite split_callback_data, split_colon_free. Qed.

Lemma webhook_decision st data a sid rest l s :
  split data = a :: sid :: rest →
  session_at st sid = Some (l, s) →
  webhook (Some data) st = decision (Some a) sid l s st.
Proof. intros Hd Hs. unfold webhook. rewrite Hd. cbn. by rewrite Hs. Qed.

Lemma resume_none i sent st : awaiting st !! i = None → resume i sent st = (None, st).
Proof. intros H. unfold resume. by rewrite H. Qed.

Lemma resume_end sent st : resume (length (awaiting st)) sent st = (None, st).
Proof. apply resume_none. by apply lookup_ge_None. Qed.

(** A decision that parks nothing is complete when [webhook] returns. *)
Lemma handle_webhook_unparked q st :
  awaiting (webhook q st).2 = awaiting st → handle_webhook q st = webhook q st.
Proof.
  intros Hsame. unfold handle_webhook. destruct (webhook q st) as [ack st1].
  cbn [snd] in *. rewrite <-Hsame, !resume_end. done.
Qed.

Lemma handle_webhook_set_status st data a sid rest l s v ack :
  split data = a :: sid :: rest →
  session_at st sid = Some (l, s) →
  decision (Some a) sid l s st = (Some ack, write l (set_status v) st) →
  handle_webhook (Some data) st = (Some ack, write l (set_status v) st).
Proof.
  intros Hd Hs Hdec. rewrite handle_webhook_unparked.
  - by rewrite (webhook_decision _ _ _ _ _ _ _ Hd Hs).
  - by rewrite (webhook_decision _ _ _ _ _ _ _ Hd Hs), Hdec.
Qed.

Lemma webhook_already_actioned st data a sid rest l s :
  split data = a :: sid :: rest →
  a = "approve" ∨ a = "wrong_pin" →
  session_at st sid = Some (l, s) →
  status s ≠ "pending" →
  webhook (Some data) st = (Some AlreadyActioned, st).
Proof.
  intros Hd Ha Hs Hst.
  rewrite (webhook_decision _ _ _ _ _ _ _ Hd Hs). unfold decision.
  destruct Ha as [-> | ->]; repeat case_decide; simplify_eq; done.
Qed.

(** A login decision ('approve' or 'wrong_pin') on a session that is not
    'pending' is answered 'Already actioned' and changes nothing. *)
Theorem login_decision_at_most_once st data a sid rest l s :
  split data = a :: sid :: rest →
  a = "approve" ∨ a = "wrong_pin" →
  session_at st sid = Some (l, s) →
  status s ≠ "pending" →
  webhook (Some data) st = (Some AlreadyActioned, st) ∧
  handle_webhook (Some data) st = (Some AlreadyActioned, st).
Proof.
  intros Hd Ha Hs Hst.
  pose proof (webhook_already_actioned _ _ _ _ _ _ _ Hd Ha Hs Hst) as Hw.
  split; [done|]. rewrite handle_webhook_unparked; [done|]. by rewrite Hw.
Qed.

(** Of two login decisions for a 'pending' session, the first is applied
    and the second, whichever it is, is answered 'Already actioned' and
    changes nothing. *)
Theorem login_decision_single_winner st d1 d2 a1 a2 sid r1 r2 l s :
  split d1 = a1 :: sid :: r1 →
  split d2 = a2 :: sid :: r2 →
  a1 = "approve" ∨ a1 = "wrong_pin" →
  a2 = "approve" ∨ a2 = "wrong_pin" →
  session_at st sid = Some (l, s) →
  status s = "pending" →
  let first := webhook (Some d1) st in
  (first.1 = Some MovedToOtp ∨ first.1 = Some WrongPinSent) ∧
  (∃ s', session_at first.2 sid = Some (l, s') ∧
         status s' = (if decide (a1 = "approve") then "approved" else "wrong_pin")) ∧
  webhook (Some d2) first.2 = (Some AlreadyActioned, first.2).
Proof.
  intros Hd1 Hd2 Ha1 Ha2 Hs Hst. cbv zeta.
  rewrite (webhook_decision _ _ _ _ _ _ _ Hd1 Hs). unfold decision.
  destruct Ha1 as [-> | ->];
    repeat first [rewrite decide_True by done | rewrite decide_False by done];
    cbn [fst snd].
  - pose proof (session_at_write_eq _ _ _ _ (set_status "approved") Hs) as Hs1.
    split; [by left|]. split; [by eexists|].
    by apply (webhook_already_actioned _ _ _ _ _ _ _ Hd2 Ha2 Hs1).
  - pose proof (session_at_write_eq _ _ _ _ (set_status "wrong_pin") Hs) as Hs1.
    split; [by right|]. split; [by eexists|].
    by apply (webhook_already_actioned _ _ _ _ _ l (set_status "wrong_pin" s) Hd2 Ha2).
Qed.

(** An OTP decision is applied whatever the status is: the 'approve_otp' and
    'wrong_code' branches carry no test. *)
Lemma otp_decision_unguarded st data a sid rest l s :
  split data = a :: sid :: rest →
  a = "approve_otp" ∨ a = "wrong_code" →
  session_at st sid = Some (l, s) →
  ∃ ack, ack ≠ AlreadyActioned ∧
    handle_webhook (Some data) st =
    (Some ack, write l (set_status (if decide (a = "approve_otp") then "continue" else a)) st).
Proof.
  intros Hd Ha Hs.
  destruct Ha as [-> | ->].
  - exists OtpApproved. split; [done|].
    by apply (handle_webhook_set_status _ _ _ _ _ _ _ _ _ Hd Hs).
  - exists WrongCodeSent. split; [done|].
    by apply (handle_webhook_set_status _ _ _ _ _ _ _ _ _ Hd Hs).
Qed.
End operator_decisions.

Section scenario.
Implicit Types (st : Server) (l : loc) (s : Session).

Lemma poll_status st sid l s :
  session_at st sid = Some (l, s) →
  api_get (Some "check_status") (Some sid) st = JsonStatus (status s).
Proof.
  intros Hs. unfold api_get, check_status. rewrite decide_True by done.
  change (property_key (Some sid)) with sid. by rewrite Hs.
Qed.

Lemma session_at_bind_new st id s :
  session_at (bind_new id s st) id = Some (length (heap st), s).
Proof.
  apply session_at_Some. cbn [bind_new sessions heap]. split.
  - apply lookup_insert_eq.
  - by apply list_lookup_middle.
Qed.

Lemma handle_api_login_new st fn ln ph pn ip uuid sent :
  ∃ s, session_at (handle_api (login_attempt fn ln ph pn None) ip uuid sent st).2 uuid
       = Some (length (heap st), s) ∧
       status s = "pending" ∧ pin s = pn ∧ createdAt s = clock st.
Proof.
  unfold handle_api, api_post. cbn [truthy].
  match goal with |- context [bind_new uuid ?new st] => set (s0 := new) end.
  replace (length (awaiting st)) with (length (awaiting (bind_new uuid s0 st))) by done.
  rewrite resume_parked. cbn [snd].
  destruct sent as [id|].
  - eexists. split; [apply session_at_write_eq, session_at_bind_new|done].
  - eexists. split; [apply session_at_bind_new|done].
Qed.

Lemma handle_api_reset_otp st sid l s ip uuid sent :
  session_at st (property_key sid) = Some (l, s) →
  handle_api (reset_otp sid) ip uuid sent st
  = (Some JsonOk, write l (set_status "otp_pending") st).
Proof. intros Hs. unfold handle_api, api_post. by rewrite Hs. Qed.

(** C2: create a session, operator approves the login, client submits an
    OTP, operator rejects it, client resets, client resubmits, operator
    approves: the polls read 'pending', 'approved' (the value that sends the
    client to the OTP screen), 'otp_pending', 'wrong_code', 'otp_pending',
    'otp_pending', and at the end 'continue'. *)
Theorem end_to_end_reaches_continue st fn ln ph pn ip uuid otp1 otp2 m1 m2 m3 :
  colon_free uuid = true →
  end_to_end st fn ln ph pn ip uuid otp1 otp2 m1 m2 m3 =
  [JsonStatus "pending"; JsonStatus "approved"; JsonStatus "otp_pending";
   JsonStatus "wrong_code"; JsonStatus "otp_pending"; JsonStatus "otp_pending";
   JsonStatus "continue"].
Proof.
  intros Hu. unfold end_to_end. cbv zeta.
  (* login *)
  destruct (handle_api_login_new st fn ln ph pn ip uuid m1) as (s1 & H1 & Hst1 & _).
  set (l := length (heap st)) in *.
  set (st1 := (handle_api (login_attempt fn ln ph pn None) ip uuid m1 st).2) in *.
  (* operator: Continue *)
  assert (split ("approve::" +:+ uuid) = ["approve"; uuid]) as Hd2
    by (by apply (split_button "approve")).
  assert (handle_webhook (loginKeyboard uuid !! 0%nat) st1
          = (Some MovedToOtp, write l (set_status "approved") st1)) as E2.
  { apply (handle_webhook_set_status _ _ _ _ _ _ _ _ _ Hd2 H1).
    unfold decision. by rewrite !decide_True. }
  rewrite E2. cbn [snd].
  pose proof (session_at_write_eq _ _ _ _ (set_status "approved") H1) as H2.
  set (st2 := write l (set_status "approved") st1) in *.
  (* client: OTP *)
  rewrite (handle_api_otp_entered st2 (Some uuid) otp1 _ _ ip uuid m2 H2). cbn [snd].
  match goal with |- context [handle_webhook _ ?st'] => set (st3 := st') end.
  assert (∃ s3, session_at st3 uuid = Some (l, s3) ∧ status s3 = "otp_pending")
    as (s3 & H3 & Hst3).
  { subst st3. destruct m2; eexists;
      (split; [rewrite !session_at_write, H2; cbn; by rewrite !decide_True|done]). }
  (* operator: Wrong Code *)
  assert (split ("wrong_code::" +:+ uuid) = ["wrong_code"; uuid]) as Hd4
    by (by apply (split_button "wrong_code")).
  assert (handle_webhook (otpKeyboard uuid !! 1%nat) st3
          = (Some WrongCodeSent, write l (set_status "wrong_code") st3)) as E4.
  { by apply (handle_webhook_set_status _ _ _ _ _ _ _ _ _ Hd4 H3). }
  rewrite E4. cbn [snd].
  pose proof (session_at_write_eq _ _ _ _ (set_status "wrong_code") H3) as H4.
  set (st4 := write l (set_status "wrong_code") st3) in *.
  (* client: reset *)
  rewrite (handle_api_reset_otp st4 (Some uuid) _ _ ip uuid None H4). cbn [snd].
  pose proof (session_at_write_eq _ _ _ _ (set_status "otp_pending") H4) as H5.
  set (st5 := write l (set_status "otp_pending") st4) in *.
  (* client: OTP again *)
  rewrite (handle_api_otp_entered st5 (Some uuid) otp2 _ _ ip uuid m3 H5). cbn [snd].
  match goal with |- context [handle_webhook _ ?st'] => set (st6 := st') end.
  assert (∃ s6, session_at st6 uuid = Some (l, s6) ∧ status s6 = "otp_pending")
    as (s6 & H6 & Hst6).
  { subst st6. destruct m3; eexists;
      (split; [rewrite !session_at_write, H5; cbn; by rewrite !decide_True|done]). }
  (* operator: Approve OTP *)
  assert (split ("approve_otp::" +:+ uuid) = ["approve_otp"; uuid]) as Hd7
    by (by apply (split_button "approve_otp")).
  assert (handle_webhook (otpKeyboard uuid !! 0%nat) st6
          = (Some OtpApproved, write l (set_status "continue") st6)) as E7.
  { by apply (handle_webhook_set_status _ _ _ _ _ _ _ _ _ Hd7 H6). }
  rewrite E7. cbn [snd].
  pose proof (session_at_write_eq _ _ _ _ (set_status "continue") H6) as H7.
  rewrite (poll_status _ _ _ _ H1), (poll_status _ _ _ _ H2), (poll_status _ _ _ _ H3),
    (poll_status _ _ _ _ H4), (poll_status _ _ _ _ H5), (poll_status _ _ _ _ H6),
    (poll_status _ _ _ _ H7).
  by rewrite Hst1, Hst3, Hst6.
Qed.
End scenario.

Section defects.
Implicit Types (st : Server) (l : loc) (s : Session).

(** C1, where the code departs from it: after the operator has rejected an
    OTP (status 'wrong_code'), a second OTP decision for the same session is
    not answered 'Already actioned'; it is applied, and the status changes
    to 'continue'. *)
Theorem late_otp_decision_is_applied :
  let st := run otp_rejected (init 0) in
  let out := handle_webhook (Some ("approve_otp::" +:+ demo_id)) st in
  valid otp_rejected (init 0) = true ∧
  api_get (Some "check_status") (Some demo_id) st = JsonStatus "wrong_code" ∧
  out.1 = Some OtpApproved ∧
  api_get (Some "check_status") (Some demo_id) out.2 = JsonStatus "continue".
Proof. vm_compute. done. Qed.

(** C5, where the code departs from it: the revert timer tests only that the
    session exists.  A session that has moved on to 'continue' before the
    timer fires is thrown back to 'pending'. *)
Theorem revert_overwrites_later_status :
  let st := run approved_during_delay (init 0) in
  valid (approved_during_delay ++ [Fire 0]) (init 0) = true ∧
  timers st = [(2000, demo_id)] ∧ clock st = 2000 ∧
  api_get (Some "check_status") (Some demo_id) st = JsonStatus "continue" ∧
  api_get (Some "check_status") (Some demo_id) (fire 0 st) = JsonStatus "pending".
Proof. vm_compute. done. Qed.

(** The half of C5 the code does implement: when the session is gone, the
    timer writes nothing. *)
Theorem revert_skips_evicted_session st i due sid :
  timers st !! i = Some (due, sid) →
  session_at st sid = None →
  fire i st = with_timers (delete i (timers st)) st.
Proof.
  intros Ht Hs. unfold fire. rewrite Ht. unfold revert.
  change (session_at (with_timers ?ts st) sid) with (session_at st sid).
  by rewrite Hs.
Qed.
End defects.

Section consistency.
Implicit Types (st : Server) (l : loc) (s : Session) (k sid : string).

Lemma reverts_park st c :
  reverts (park c st) = reverts st ++ option_list (cont_target c).
Proof.
  unfold reverts, park. cbn [timers awaiting]. rewrite omap_app, app_assoc.
  f_equal; cbn; by destruct (cont_target c).
Qed.

Lemma reverts_setTimeout st d sid :
  reverts (setTimeout d sid st) ≡ₚ sid :: reverts st.
Proof.
  unfold reverts, setTimeout. cbn [timers awaiting]. rewrite fmap_app. cbn.
  rewrite <-app_assoc. cbn. symmetry. apply Permutation_middle.
Qed.

Lemma reverts_unpark st i c :
  awaiting st !! i = Some c →
  reverts st ≡ₚ option_list (cont_target c) ++ reverts (unpark i st).
Proof.
  intros Hc. unfold reverts, unpark. cbn [timers awaiting].
  rewrite (delete_Permutation _ _ _ Hc) at 1. cbn.
  destruct (cont_target c) as [sid|]; cbn; [|done].
  symmetry. apply Permutation_middle.
Qed.

Lemma reverts_delete_timer st i due sid :
  timers st !! i = Some (due, sid) →
  reverts st ≡ₚ sid :: reverts (with_timers (delete i (timers st)) st).
Proof.
  intros Ht. unfold reverts, with_timers. cbn [timers awaiting].
  by rewrite (delete_Permutation _ _ _ Ht) at 1.
Qed.

Lemma NoDup_below {A} (l1 l2 : list A) : l1 ⊆+ l2 → NoDup l2 → NoDup l1.
Proof.
  intros (l & Hp & Hs)%submseteq_sublist_r Hn. rewrite Hp.
  by eapply sublist_NoDup.
Qed.

(** Fewer ids, the same records, fewer reverts. *)
Lemma consistent_shrink st st' :
  sessions st' ⊆ sessions st → heap st' = heap st → reverts st' ⊆+ reverts st →
  consistent st → consistent st'.
Proof.
  intros Hm Hh Hr [Hb Hi Hn Hp]. split.
  - intros k l Hk. rewrite Hh. eapply Hb, lookup_weaken; eauto.
  - intros k1 k2 l H1 H2. eapply Hi; eapply lookup_weaken; eauto.
  - by eapply NoDup_below.
  - intros k l s [Hk Hl]%session_at_Some Hst Hin. rewrite Hh in Hl.
    eapply (Hp k l s); [|done|by eapply elem_of_submseteq].
    apply session_at_Some. split; [|done]. by eapply lookup_weaken.
Qed.

(** A field assignment that does not make a record 'pending'. *)
Lemma consistent_write st l f :
  (∀ s, heap st !! l = Some s → status (f s) = "pending" → status s = "pending") →
  consistent st → consistent (write l f st).
Proof.
  intros Hf [Hb Hi Hn Hp]. split; cbn [write sessions heap].
  - intros k l' Hk. rewrite length_alter. by eapply Hb.
  - done.
  - done.
  - intros k l' s Hs Hst. rewrite session_at_write in Hs.
    destruct (session_at st k) as [[l0 s0]|] eqn:Hs0; cbn in Hs; [|done].
    simplify_eq. apply (Hp k l' s0 Hs0).
    case_decide; [|done]. subst. apply Hf; [|done].
    by apply session_at_Some in Hs0 as [_ ?].
Qed.

(** The revert itself: the one assignment of 'pending'. *)
Lemma consistent_write_pending st sid l s :
  session_at st sid = Some (l, s) → sid ∉ reverts st →
  consistent st → consistent (write l (set_status "pending") st).
Proof.
  intros Hsid Hfree [Hb Hi Hn Hp]. split; cbn [write sessions heap].
  - intros k l' Hk. rewrite length_alter. by eapply Hb.
  - done.
  - done.
  - intros k l' s' Hs Hst. rewrite session_at_write in Hs.
    destruct (session_at st k) as [[l0 s0]|] eqn:Hs0; cbn in Hs; [|done].
    simplify_eq. case_decide.
    + subst. apply session_at_Some in Hs0 as [Hk _].
      apply session_at_Some in Hsid as [Hsid _].
      by rewrite (Hi _ _ _ Hk Hsid).
    + by apply (Hp k l' s0 Hs0).
Qed.

(** A new session under an id that no revert is waiting for. *)
Lemma consistent_bind_new st id s :
  id ∉ reverts st → consistent st → consistent (bind_new id s st).
Proof.
  intros Hfree [Hb Hi Hn Hp]. split; cbn [bind_new sessions heap].
  - intros k l. rewrite length_app. cbn. rewrite lookup_insert.
    case_decide; intros Hk; simplify_eq; [lia|]. apply Hb in Hk. lia.
  - intros k1 k2 l. rewrite !lookup_insert.
    repeat case_decide; intros H1 H2; simplify_eq; try done.
    + apply Hb in H2. lia.
    + apply Hb in H1. lia.
    + by eapply Hi.
  - done.
  - intros k l s' [Hk Hl]%session_at_Some Hst. cbn [bind_new sessions heap] in *.
    rewrite lookup_insert in Hk. case_decide; simplify_eq; [done|].
    apply (Hp k l s'); [|done]. apply session_at_Some. split; [done|].
    rewrite lookup_app_l in Hl; [done|]. by eapply Hb.
Qed.

(** One more revert, for a session that is not 'pending'. *)
Lemma consistent_add_revert st st' sid :
  sessions st' = sessions st → heap st' = heap st → reverts st' ≡ₚ sid :: reverts st →
  sid ∉ reverts st →
  (∀ l s, session_at st sid = Some (l, s) → status s ≠ "pending") →
  consistent st → consistent st'.
Proof.
  intros Hm Hh Hr Hfree Hnp [Hb Hi Hn Hp]. split.
  - intros k l. rewrite Hm, Hh. apply Hb.
  - intros k1 k2 l. rewrite Hm. apply Hi.
  - rewrite Hr. by apply NoDup_cons.
  - intros k l s Hs Hst. rewrite Hr.
    assert (session_at st k = Some (l, s)) as Hs'.
    { apply session_at_Some in Hs as [Hk Hl]. apply session_at_Some.
      by rewrite <-Hm, <-Hh. }
    apply not_elem_of_cons. split; [|by eapply Hp].
    intros ->. by eapply Hnp.
Qed.
End consistency.

Section consistency_steps.
Implicit Types (st : Server) (l : loc) (s : Session) (k sid : string).

Lemma consistent_park st c :
  cont_target c = None → consistent st → consistent (park c st).
Proof.
  intros Hc. apply consistent_shrink; [done|done|].
  by rewrite reverts_park, Hc, app_nil_r.
Qed.

Lemma consistent_unpark st i c :
  awaiting st !! i = Some c → consistent st → consistent (unpark i st).
Proof.
  intros Hc. apply consistent_shrink; [done|done|].
  rewrite (reverts_unpark _ _ _ Hc). by apply submseteq_inserts_l.
Qed.

Lemma enabled_PostApi body ip uuid st :
  enabled (PostApi body ip uuid) st = true →
  sessions st !! uuid = None ∧ uuid ∉ reverts st.
Proof.
  cbn [enabled]. intros [H1 H2]%andb_true_iff.
  by apply bool_decide_eq_true in H1, H2.
Qed.

Lemma enabled_Fire i st :
  enabled (Fire i) st = true →
  ∃ due sid, timers st !! i = Some (due, sid) ∧ due ≤ clock st.
Proof.
  cbn [enabled]. destruct (timers st !! i) as [[due sid]|]; [|done].
  intros H%bool_decide_eq_true. eauto.
Qed.

Lemma api_post_consistent body ip uuid st :
  enabled (PostApi body ip uuid) st = true →
  consistent st → consistent (api_post body ip uuid st).2.
Proof.
  intros [_ Hfree]%enabled_PostApi Hst. unfold api_post.
  repeat case_match; simplify_eq; cbn [snd]; try done;
    try (apply consistent_park; [done|]);
    first [ by apply consistent_bind_new
          | by apply consistent_write
          | done ].
Qed.

Lemma webhook_consistent q st : consistent st → consistent (webhook q st).2.
Proof.
  intros Hst. unfold webhook.
  destruct q as [data|]; [|done]. cbn zeta.
  destruct (session_at st _) as [[l s]|] eqn:Hs; [|done].
  unfold decision. repeat case_decide; cbn [snd]; try done;
    try (by apply consistent_write).
  (* wrong_pin on a pending session *)
  match goal with |- consistent (park _ ?st1) =>
    apply (consistent_add_revert st1 _ (property_key (split data !! 1%nat)))
  end.
  - done.
  - done.
  - rewrite reverts_park. cbn. symmetry. by rewrite <-Permutation_cons_append.
  - by eapply (pending_no_revert _ Hst).
  - intros l' s'. rewrite (session_at_write_eq _ _ _ _ _ Hs). by intros [= <- <-].
  - by apply consistent_write.
Qed.

Lemma resume_consistent i sent st : consistent st → consistent (resume i sent st).2.
Proof.
  intros Hst. unfold resume.
  destruct (awaiting st !! i) as [c|] eqn:Hc; [|done].
  pose proof (consistent_unpark _ _ _ Hc Hst) as Hst'.
  destruct c as [l sid|l|l| |sid|sid]; cbn [snd].
  - destruct sent; [by apply consistent_write|done].
  - apply consistent_write; [done|]. destruct sent; [by apply consistent_write|done].
  - by apply consistent_write.
  - done.
  - revert Hst. apply consistent_shrink; [done|done|].
    apply Permutation_submseteq.
    rewrite reverts_park, (reverts_unpark _ _ _ Hc). cbn.
    by rewrite <-Permutation_cons_append.
  - revert Hst. apply consistent_shrink; [done|done|].
    apply Permutation_submseteq.
    by rewrite reverts_setTimeout, (reverts_unpark _ _ _ Hc).
Qed.

Lemma fire_consistent i st : consistent st → consistent (fire i st).
Proof.
  intros Hst. unfold fire.
  destruct (timers st !! i) as [[due sid]|] eqn:Ht; [|done].
  pose proof (reverts_delete_timer _ _ _ _ Ht) as Hr.
  set (st' := with_timers (delete i (timers st)) st) in *.
  assert (consistent st') as Hst'.
  { revert Hst. apply consistent_shrink; [done|done|].
    rewrite Hr. by apply submseteq_cons. }
  assert (sid ∉ reverts st') as Hfree.
  { pose proof (reverts_nodup _ Hst) as Hn. rewrite Hr in Hn.
    by apply NoDup_cons_1_1 in Hn. }
  unfold revert. destruct (session_at st' sid) as [[l s]|] eqn:Hs; [|done].
  by eapply consistent_write_pending.
Qed.

Lemma sweep_consistent st : consistent st → consistent (sweep st).
Proof.
  apply consistent_shrink; [|done|done].
  apply map_subseteq_spec. intros k l. rewrite sweep_lookup.
  repeat case_match; by intros.
Qed.

Lemma step_consistent ev st :
  enabled ev st = true → consistent st → consistent (step ev st).
Proof.
  intros Hen Hst. destruct ev; cbn [step].
  - by apply api_post_consistent.
  - by apply webhook_consistent.
  - by apply resume_consistent.
  - by apply fire_consistent.
  - by apply sweep_consistent.
  - revert Hst. by apply consistent_shrink.
Qed.

Lemma consistent_init t0 : consistent (init t0).
Proof.
  split; cbn.
  - intros k l. by rewrite lookup_empty.
  - intros k1 k2 l. by rewrite lookup_empty.
  - apply NoDup_nil_2.
  - intros k l s _ _. apply not_elem_of_nil.
Qed.

Lemma run_consistent evs st :
  valid evs st = true → consistent st → consistent (run evs st).
Proof.
  revert st. induction evs as [|ev evs IH]; intros st Hv Hst; [done|].
  cbn [valid] in Hv. apply andb_true_iff in Hv as [Hen Hv].
  cbn [run foldl]. apply IH; [done|]. by apply step_consistent.
Qed.
End consistency_steps.

Section revert_delay.
Implicit Types (st : Server) (l : loc) (s : Session) (k sid : string).

Lemma clock_api_post body ip uuid st : clock (api_post body ip uuid st).2 = clock st.
Proof. unfold api_post. by repeat case_match. Qed.

Lemma clock_webhook q st : clock (webhook q st).2 = clock st.
Proof. unfold webhook, decision. by repeat case_match. Qed.

Lemma clock_resume i sent st : clock (resume i sent st).2 = clock st.
Proof. unfold resume. by repeat case_match. Qed.

Lemma clock_fire i st : clock (fire i st) = clock st.
Proof. unfold fire, revert. by repeat case_match. Qed.

Lemma clock_step ev st : enabled ev st = true → clock st ≤ clock (step ev st).
Proof.
  destruct ev; cbn [step enabled]; intros Hen.
  - by rewrite clock_api_post.
  - by rewrite clock_webhook.
  - by rewrite clock_resume.
  - by rewrite clock_fire.
  - done.
  - apply bool_decide_eq_true in Hen. cbn. lia.
Qed.

Lemma clock_run evs st : valid evs st = true → clock st ≤ clock (run evs st).
Proof.
  revert st. induction evs as [|ev evs IH]; intros st Hv; [done|].
  cbn [valid] in Hv. apply andb_true_iff in Hv as [Hen Hv].
  cbn [run foldl]. etrans; [by apply clock_step|]. by apply IH.
Qed.

Lemma timers_api_post body ip uuid st : timers (api_post body ip uuid st).2 = timers st.
Proof. unfold api_post. by repeat case_match. Qed.

Lemma timers_webhook q st : timers (webhook q st).2 = timers st.
Proof. unfold webhook, decision. by repeat case_match. Qed.

Lemma reverts_api_post body ip uuid st : reverts (api_post body ip uuid st).2 = reverts st.
Proof.
  unfold api_post.
  repeat case_match; simplify_eq; cbn [snd]; try done;
    by rewrite reverts_park, app_nil_r.
Qed.

Lemma reverts_webhook q st sid : sid ∈ reverts st → sid ∈ reverts (webhook q st).2.
Proof.
  intros Hin. unfold webhook, decision.
  repeat case_match; simplify_eq; cbn [snd]; try done.
  rewrite reverts_park. apply elem_of_app. by left.
Qed.

Lemma reverts_resume i sent st : reverts (resume i sent st).2 ≡ₚ reverts st.
Proof.
  unfold resume. destruct (awaiting st !! i) as [c|] eqn:Hc; [|done].
  rewrite (reverts_unpark _ _ _ Hc).
  destruct c as [l sid|l|l| |sid|sid]; cbn [snd]; try (by destruct sent).
  - rewrite reverts_park. cbn. by rewrite <-Permutation_cons_append.
  - by rewrite reverts_setTimeout.
Qed.

Lemma timers_resume i sent st due sid :
  (due, sid) ∈ timers (resume i sent st).2 →
  (due, sid) ∈ timers st ∨ due = clock st + 2000.
Proof.
  unfold resume. destruct (awaiting st !! i) as [c|]; [|by left].
  destruct c as [l sid'|l|l| |sid'|sid']; cbn [snd]; try (destruct sent; by left).
  cbn. intros [Hin|Hin]%elem_of_app; [by left|].
  apply list_elem_of_singleton in Hin. right. congruence.
Qed.

(** While the clock is short of [bound], every step keeps the revert pending. *)
Lemma held_step bound sid ev st :
  enabled ev st = true → clock st < bound →
  held_until bound sid st → held_until bound sid (step ev st).
Proof.
  intros Hen Hclock [Hst Hin Hdue Hb].
  pose proof (clock_step _ _ Hen) as Hmono.
  split; [by apply step_consistent| | |lia].
  - destruct ev as [body ip uuid|q|i sent|i| |d]; cbn [step]; try done.
    + by rewrite reverts_api_post.
    + by apply reverts_webhook.
    + by rewrite reverts_resume.
    + apply enabled_Fire in Hen as (due & sid' & Ht & Hle).
      unfold fire. rewrite Ht.
      assert (sid ∈ reverts (with_timers (delete i (timers st)) st)) as Hin'.
      { rewrite (reverts_delete_timer _ _ _ _ Ht) in Hin.
        apply elem_of_cons in Hin as [->|Hin]; [|done].
        assert (bound ≤ due); [|lia].
        apply Hdue. by eapply list_elem_of_lookup_2. }
      unfold revert. by case_match; [case_match|].
  - intros due. destruct ev as [body ip uuid|q|i sent|i| |d]; cbn [step]; try done.
    + rewrite timers_api_post. apply Hdue.
    + rewrite timers_webhook. apply Hdue.
    + intros [Hold| ->]%timers_resume; [by apply Hdue|lia].
    + unfold fire. destruct (timers st !! i) as [[due' sid']|]; [|apply Hdue].
      intros Hd. apply Hdue.
      assert ((due, sid) ∈ delete i (timers st)) as Hd'.
      { revert Hd. unfold revert. by repeat case_match. }
      eapply elem_of_submseteq; [done|].
      apply sublist_submseteq, sublist_delete.
    + apply Hdue.
    + apply Hdue.
Qed.

Lemma held_run bound sid evs st :
  valid evs st = true → clock (run evs st) < bound →
  held_until bound sid st → held_until bound sid (run evs st).
Proof.
  revert st. induction evs as [|ev evs IH]; intros st Hv Hclock Hst; [done|].
  cbn [valid] in Hv. apply andb_true_iff in Hv as [Hen Hv].
  cbn [run foldl] in *. apply IH; [done|done|].
  apply held_step; [done| |done].
  pose proof (clock_step _ _ Hen). pose proof (clock_run _ _ Hv).
  unfold run in *. lia.
Qed.

Lemma held_not_pending bound sid st :
  held_until bound sid st →
  api_get (Some "check_status") (Some sid) st ≠ JsonStatus "pending".
Proof.
  intros [Hst Hin _ _]. unfold api_get, check_status. rewrite decide_True by done.
  change (property_key (Some sid)) with sid.
  destruct (session_at st sid) as [[l s]|] eqn:Hs; [|done].
  intros [= Hp]. by eapply (pending_no_revert _ Hst).
Qed.
End revert_delay.

Section wrong_pin.
Implicit Types (st : Server) (l : loc) (s : Session) (k sid : string).

Lemma webhook_wrong_pin st data sid rest l s :
  split data = "wrong_pin" :: sid :: rest →
  session_at st sid = Some (l, s) → status s = "pending" →
  webhook (Some data) st =
  (Some WrongPinSent, park (KWrongPinAnswer sid) (write l (set_status "wrong_pin") st)).
Proof.
  intros Hd Hs Hst. rewrite (webhook_decision _ _ _ _ _ _ _ Hd Hs).
  unfold decision. by rewrite decide_False, !decide_True.
Qed.

(** C4: when the operator rejects the PIN of a 'pending' session, the poll
    reads 'wrong_pin' at once.  From then on, whatever the clients, the
    operator, the sweep and the timers do, the poll does not read 'pending'
    while the clock is less than 2000 ms past the rejection.  At 2000 ms the
    revert can run, and if nothing else has touched the session the poll
    then reads 'pending'. *)
Theorem wrong_pin_visible_until_delay t0 evs0 data sid rest l s :
  let st := run evs0 (init t0) in
  let out := webhook (Some data) st in
  let poll := api_get (Some "check_status") (Some sid) in
  valid evs0 (init t0) = true →
  split data = "wrong_pin" :: sid :: rest →
  session_at st sid = Some (l, s) →
  status s = "pending" →
  out.1 = Some WrongPinSent ∧
  poll out.2 = JsonStatus "wrong_pin" ∧
  (∀ evs, valid evs out.2 = true →
          clock (run evs out.2) < clock st + 2000 →
          poll (run evs out.2) ≠ JsonStatus "pending") ∧
  (let n := length (awaiting st) in
   let m := length (timers st) in
   let evs := [Resume n None; Resume n None; Tick 2000; Fire m] in
   valid evs out.2 = true ∧ poll (run evs out.2) = JsonStatus "pending").
Proof.
  intros st out poll Hv0 Hd Hs Hst.
  assert (consistent st) as Hcons.
  { apply run_consistent; [done|apply consistent_init]. }
  subst out. rewrite (webhook_wrong_pin _ _ _ _ _ _ Hd Hs Hst). cbn [fst snd].
  set (st1 := write l (set_status "wrong_pin") st).
  pose proof (session_at_write_eq _ _ _ _ (set_status "wrong_pin") Hs) as Hs1.
  fold st1 in Hs1.
  split; [done|]. split; [by apply (poll_status _ _ _ _ Hs1)|]. split.
  - intros evs Hv Hclock. apply (held_not_pending (clock st + 2000)).
    apply held_run; [done|done|]. split.
    + pose proof (webhook_consistent (Some data) st Hcons) as Hc.
      by rewrite (webhook_wrong_pin _ _ _ _ _ _ Hd Hs Hst) in Hc.
    + rewrite reverts_park. apply elem_of_app. right. apply list_elem_of_here.
    + intros due Hin. exfalso.
      apply (pending_no_revert _ Hcons _ _ _ Hs Hst).
      unfold reverts. apply elem_of_app. left.
      apply list_elem_of_fmap. by exists (due, sid).
    + cbn. lia.
  - cbv zeta.
    change (length (awaiting st)) with (length (awaiting st1)).
    change (length (timers st)) with (length (timers st1)).
    cbn [valid run foldl step enabled andb].
    rewrite resume_parked. cbn [snd]. rewrite resume_parked. cbn [snd].
    set (st2 := setTimeout 2000 sid st1).
    assert (timers (advance 2000 st2) !! length (timers st1)
            = Some (clock st1 + 2000, sid)) as Ht.
    { cbn. by apply list_lookup_middle. }
    rewrite Ht. split.
    + rewrite !andb_true_r. apply bool_decide_eq_true. cbn. lia.
    + unfold fire. rewrite Ht. unfold revert.
      change (session_at (with_timers _ (advance 2000 st2)) sid)
        with (session_at st1 sid).
      rewrite Hs1.
      match goal with |- poll (write l _ ?st') = _ =>
        assert (session_at st' sid = Some (l, set_status "wrong_pin" s)) as Hs3
          by exact Hs1
      end.
      by rewrite (poll_status _ _ _ _ (session_at_write_eq _ _ _ _ _ Hs3)).
Qed.
End wrong_pin.

Section keyboards.
Implicit Types (st : Server) (l : loc) (s : Session).

(** The callback data of the four buttons of the alerts for [sid] splits
    into the action and the parts of [sid]; for an id without [:] that is
    the action and the id, and the webhook then dispatches that action on
    the session stored under that id. *)
Theorem button_data_round_trip sid :
  split <$> (loginKeyboard sid ++ otpKeyboard sid) = (λ a, a :: split sid) <$> actions ∧
  (colon_free sid = true →
   split <$> (loginKeyboard sid ++ otpKeyboard sid) = (λ a, [a; sid]) <$> actions ∧
   ∀ st l s i data,
     session_at st sid = Some (l, s) →
     (loginKeyboard sid ++ otpKeyboard sid) !! i = Some data →
     ∃ a, actions !! i = Some a ∧ webhook (Some data) st = decision (Some a) sid l s st).
Proof.
  assert (split <$> (loginKeyboard sid ++ otpKeyboard sid)
          = (λ a, a :: split sid) <$> actions) as Hgen.
  { reflexivity. }
  split; [done|]. intros Hfree.
  assert (split <$> (loginKeyboard sid ++ otpKeyboard sid)
          = (λ a, [a; sid]) <$> actions) as Hids.
  { rewrite Hgen. by rewrite (split_colon_free _ Hfree). }
  split; [done|]. intros st l s i data Hs Hi.
  assert ((split <$> (loginKeyboard sid ++ otpKeyboard sid)) !! i = Some (split data)) as Hsp.
  { by rewrite list_lookup_fmap, Hi. }
  rewrite Hids, list_lookup_fmap in Hsp.
  destruct (actions !! i) as [a|] eqn:Ha; [|done]. cbn in Hsp. simplify_eq.
  exists a. split; [done|]. by eapply webhook_decision.
Qed.
End keyboards.

Section frames_by_id.
Implicit Types (st : Server) (l : loc) (s : Session) (k key : string).

Lemma reachable_consistent t0 evs :
  valid evs (init t0) = true → consistent (run evs (init t0)).
Proof. intros Hv. apply run_consistent; [done|apply consistent_init]. Qed.

Lemma session_at_write_other st k l f :
  sessions st !! k ≠ Some l → session_at (write l f st) k = session_at st k.
Proof.
  intros Hk. rewrite session_at_write.
  destruct (session_at st k) as [[l' s']|] eqn:Hs; [|done]. cbn.
  rewrite decide_False; [done|]. intros ->.
  by apply session_at_Some in Hs as [? _].
Qed.

Lemma session_at_write_frame st key k l s f :
  consistent st → session_at st key = Some (l, s) → k ≠ key →
  session_at (write l f st) k = session_at st k.
Proof.
  intros Hst [Hkey _]%session_at_Some Hne. apply session_at_write_other.
  intros Hk. apply Hne. by eapply (refs_inj _ Hst).
Qed.

Lemma session_at_bind_new_other st id s k :
  consistent st → k ≠ id → session_at (bind_new id s st) k = session_at st k.
Proof.
  intros Hst Hne. unfold session_at, bind_new. cbn [sessions heap].
  rewrite lookup_insert_ne by done.
  destruct (sessions st !! k) as [l|] eqn:Hk; [|done]. cbn.
  rewrite lookup_app_l; [done|]. by eapply (refs_bound _ Hst).
Qed.

Lemma api_post_login_create st fn ln ph pn sid ip uuid :
  ¬ resubmits st sid →
  api_post (login_attempt fn ln ph pn sid) ip uuid st =
  (None, park (KLogin (length (heap st)) uuid)
           (bind_new uuid
              (mkSession (default "Unknown" fn) (default "User" ln) ph pn
                         "pending" (clock st) ip None None None None) st)).
Proof.
  intros Hno. unfold api_post.
  destruct (truthy sid) eqn:Ht; [|done].
  destruct (session_at st (property_key sid)) as [[l s]|] eqn:Hs; [|done].
  case_decide; [|done]. exfalso. apply Hno. split; [done|]. eauto.
Qed.

Lemma handle_api_login_create st fn ln ph pn sid ip uuid sent :
  ¬ resubmits st sid →
  handle_api (login_attempt fn ln ph pn sid) ip uuid sent st =
  (Some (JsonSession uuid),
   let st1 := bind_new uuid
                (mkSession (default "Unknown" fn) (default "User" ln) ph pn
                           "pending" (clock st) ip None None None None) st in
   match sent with
   | Some id => write (length (heap st)) (set_msgId (Some id)) st1
   | None => st1
   end).
Proof.
  intros Hno. unfold handle_api. rewrite (api_post_login_create _ _ _ _ _ _ _ _ Hno).
  match goal with |- context [bind_new uuid ?new st] => set (s0 := new) end.
  replace (length (awaiting st)) with (length (awaiting (bind_new uuid s0 st))) by done.
  by rewrite resume_parked.
Qed.

(** A login that does not find a 'pending' session under the id it carries
    (no id, an empty id, an id that is not in the store, or the id of a
    session in any other status) opens a new session under the id
    [uuidv4()] returns: 'pending', created now, with the submitted fields
    and the default names where they are missing.  The response carries the
    new id, and every other session is as it was. *)
Theorem login_opens_new_session t0 evs fn ln ph pn sid ip uuid sent :
  let st := run evs (init t0) in
  let out := handle_api (login_attempt fn ln ph pn sid) ip uuid sent st in
  valid evs (init t0) = true →
  ¬ resubmits st sid →
  out.1 = Some (JsonSession uuid) ∧
  session_at out.2 uuid =
    Some (length (heap st),
          mkSession (default "Unknown" fn) (default "User" ln) ph pn
                    "pending" (clock st) ip sent None None None) ∧
  ∀ k, k ≠ uuid → session_at out.2 k = session_at st k.
Proof.
  intros st out Hv Hno. subst out.
  pose proof (reachable_consistent _ _ Hv) as Hst. fold st in Hst.
  rewrite (handle_api_login_create _ _ _ _ _ _ _ _ _ Hno). cbn [fst snd].
  split; [done|].
  match goal with |- context [bind_new uuid ?new st] => set (s0 := new) end.
  split.
  - destruct sent as [id|].
    + by rewrite (session_at_write_eq _ _ _ _ _ (session_at_bind_new st uuid s0)).
    + apply session_at_bind_new.
  - intros k Hk. destruct sent as [id|].
    + rewrite session_at_write_other.
      * by apply session_at_bind_new_other.
      * cbn [bind_new sessions]. rewrite lookup_insert_ne by done.
        intros Hl. apply (refs_bound _ Hst) in Hl. lia.
    + by apply session_at_bind_new_other.
Qed.


(** [otp_resend] and [reset_otp] set the status of any existing session to
    'otp_pending', whatever it was, and change nothing else of its record:
    the stored PIN, OTP and message handles stay. *)
Theorem resend_and_reset_force_otp_pending st sid l s ip uuid sent body :
  session_at st (property_key sid) = Some (l, s) →
  body = otp_resend sid ∨ body = reset_otp sid →
  let out := handle_api body ip uuid sent st in
  out.1 = Some JsonOk ∧
  out.2 = write l (set_status "otp_pending") st ∧
  session_at out.2 (property_key sid) = Some (l, set_status "otp_pending" s).
Proof.
  intros Hs Hb. cbv zeta.
  assert (handle_api body ip uuid sent st
          = (Some JsonOk, write l (set_status "otp_pending") st)) as ->.
  { destruct Hb as [-> | ->].
    - unfold handle_api, api_post. rewrite Hs.
      by rewrite resume_parked.
    - by apply (handle_api_reset_otp _ _ _ _ _ _ _ Hs). }
  cbn [fst snd]. split; [done|]. split; [done|]. by apply session_at_write_eq.
Qed.
End frames_by_id.

Section isolation.
Implicit Types (st : Server) (l : loc) (s : Session) (k key : string).

Lemma not_bound st key k l s :
  consistent st → session_at st key = Some (l, s) → k ≠ key →
  sessions st !! k ≠ Some l.
Proof.
  intros Hst [Hkey _]%session_at_Some Hne Hk. apply Hne.
  by eapply (refs_inj _ Hst).
Qed.

Lemma bind_new_frame st id s0 k sent :
  consistent st → k ≠ id →
  session_at
    match sent with
    | Some m => write (length (heap st)) (set_msgId (Some m)) (bind_new id s0 st)
    | None => bind_new id s0 st
    end k = session_at st k.
Proof.
  intros Hst Hk. destruct sent as [m|].
  - rewrite session_at_write_other.
    + by apply session_at_bind_new_other.
    + cbn [bind_new sessions]. rewrite lookup_insert_ne by done.
      intros Hl. apply (refs_bound _ Hst) in Hl. lia.
  - by apply session_at_bind_new_other.
Qed.



Lemma webhook_frame st data k :
  consistent st → k ≠ property_key (split data !! 1%nat) →
  session_at (webhook (Some data) st).2 k = session_at st k.
Proof.
  intros Hst Hk. unfold webhook. cbv zeta.
  destruct (session_at st (property_key (split data !! 1%nat))) as [[l s]|] eqn:Hs;
    [|done].
  pose proof (not_bound _ _ _ _ _ Hst Hs Hk) as Hnb.
  unfold decision. repeat case_decide; cbn [snd]; try done;
    try change (session_at (park _ ?x) k) with (session_at x k);
    by rewrite ?session_at_write_other.
Qed.

Lemma webhook_awaiting q st :
  awaiting (webhook q st).2 = awaiting st ∨
  ∃ l sid, (webhook q st).2
           = park (KWrongPinAnswer sid) (write l (set_status "wrong_pin") st).
Proof.
  unfold webhook, decision. repeat case_match; cbn [snd]; eauto.
Qed.

Lemma handle_webhook_store q st :
  (handle_webhook q st).2 = (webhook q st).2 ∨
  ∃ sid, (handle_webhook q st).2
         = setTimeout 2000 sid (unpark (length (awaiting st)) (webhook q st).2) ∧
         awaiting st = awaiting (unpark (length (awaiting st)) (webhook q st).2).
Proof.
  destruct (webhook_awaiting q st) as [Hsame|(l & sid & Hpark)].
  - left. by rewrite handle_webhook_unparked.
  - right. exists sid. unfold handle_webhook.
    destruct (webhook q st) as [ack st1]. cbn [snd] in *. subst st1.
    set (st1 := write l (set_status "wrong_pin") st).
    change (length (awaiting st)) with (length (awaiting st1)).
    rewrite resume_parked. cbn [snd]. rewrite resume_parked. cbn [snd].
    assert (unpark (length (awaiting st1)) (park (KWrongPinAnswer sid) st1) = st1) as ->.
    { unfold unpark, park. cbn. rewrite (delete_middle _ []), app_nil_r. done. }
    done.
Qed.

Lemma handle_webhook_session_at q st k :
  session_at (handle_webhook q st).2 k = session_at (webhook q st).2 k.
Proof.
  destruct (handle_webhook_store q st) as [-> | (sid & -> & _)]; done.
Qed.

Lemma fire_frame st i due sid k :
  consistent st → timers st !! i = Some (due, sid) → k ≠ sid →
  session_at (fire i st) k = session_at st k.
Proof.
  intros Hst Ht Hk. unfold fire. rewrite Ht. unfold revert.
  set (st' := with_timers (delete i (timers st)) st).
  change (session_at st k) with (session_at st' k).
  destruct (session_at st' sid) as [[l s]|] eqn:Hs; [|done].
  apply session_at_write_other. intros Hl. apply Hk.
  apply session_at_Some in Hs as [Hsid _].
  by eapply (refs_inj _ Hst).
Qed.

(** An operator decision, run to the point where its revert is scheduled,
    and the revert itself when it fires, read and write only the session
    whose id they carry.  Every other session is left as it was. *)
Theorem decision_touches_named_session_only t0 evs k :
  let st := run evs (init t0) in
  valid evs (init t0) = true →
  (∀ data, k ≠ property_key (split data !! 1%nat) →
     session_at (handle_webhook (Some data) st).2 k = session_at st k) ∧
  (∀ i due sid, timers st !! i = Some (due, sid) → k ≠ sid →
     session_at (fire i st) k = session_at st k).
Proof.
  intros st Hv. pose proof (reachable_consistent _ _ Hv) as Hst. split.
  - intros data Hk. rewrite handle_webhook_session_at. by apply webhook_frame.
  - intros i due sid Ht Hk. by eapply fire_frame.
Qed.

End isolation.

Section lifetimes.
Implicit Types (st : Server) (l : loc) (s : Session) (k : string).

Lemma keeps_refl st : keeps st st.
Proof. intros l s Hl. eauto. Qed.

Lemma keeps_write st st' l f :
  (∀ s, subject (f s) = subject s) → keeps st st' → keeps st (write l f st').
Proof.
  intros Hf Hk l' s Hl. destruct (Hk l' s Hl) as (s' & Hl' & Hs').
  cbn [write heap]. rewrite list_lookup_alter.
  destruct (decide (l = l')) as [->|Hne].
  - rewrite Hl'. eexists. split; [done|]. by rewrite Hf.
  - eauto.
Qed.

Lemma keeps_bind_new st st' id s0 : keeps st st' → keeps st (bind_new id s0 st').
Proof.
  intros Hk l s Hl. destruct (Hk l s Hl) as (s' & Hl' & Hs').
  exists s'. split; [|done]. cbn [bind_new heap]. by apply lookup_app_l_Some.
Qed.

Lemma keeps_same_heap st st' st'' : heap st'' = heap st' → keeps st st' → keeps st st''.
Proof. intros Hh Hk l s Hl. rewrite Hh. by apply Hk. Qed.

Lemma keeps_trans st1 st2 st3 : keeps st1 st2 → keeps st2 st3 → keeps st1 st3.
Proof.
  intros H12 H23 l s Hl. destruct (H12 l s Hl) as (s2 & Hl2 & Hs2).
  destruct (H23 l s2 Hl2) as (s3 & Hl3 & Hs3). exists s3. split; [done|congruence].
Qed.

Ltac keeps_tac :=
  repeat match goal with
  | |- keeps ?a ?a => apply keeps_refl
  | |- keeps _ (write _ _ _) => apply keeps_write; [by intros []|]
  | |- keeps _ (bind_new _ _ _) => apply keeps_bind_new
  | |- keeps _ (park _ ?x) => apply (keeps_same_heap _ x); [reflexivity|]
  | |- keeps _ (unpark _ ?x) => apply (keeps_same_heap _ x); [reflexivity|]
  | |- keeps _ (setTimeout _ _ ?x) => apply (keeps_same_heap _ x); [reflexivity|]
  | |- keeps _ (with_timers _ ?x) => apply (keeps_same_heap _ x); [reflexivity|]
  | |- keeps _ (with_sessions _ ?x) => apply (keeps_same_heap _ x); [reflexivity|]
  | |- keeps _ (advance _ ?x) => apply (keeps_same_heap _ x); [reflexivity|]
  | |- keeps _ (match ?o with _ => _ end) => destruct o
  end.

Lemma api_post_keeps body ip uuid st : keeps st (api_post body ip uuid st).2.
Proof. unfold api_post. repeat case_match; simplify_eq; cbn [snd]; keeps_tac. Qed.

Lemma webhook_keeps q st : keeps st (webhook q st).2.
Proof.
  unfold webhook, decision. repeat case_match; simplify_eq; cbn [snd]; keeps_tac.
Qed.

Lemma resume_keeps i sent st : keeps st (resume i sent st).2.
Proof. unfold resume. repeat case_match; simplify_eq; cbn [snd]; keeps_tac. Qed.

Lemma fire_keeps i st : keeps st (fire i st).
Proof. unfold fire, revert. repeat case_match; simplify_eq; keeps_tac. Qed.

Lemma step_keeps ev st : keeps st (step ev st).
Proof.
  destruct ev; cbn [step].
  - apply api_post_keeps.
  - apply webhook_keeps.
  - apply resume_keeps.
  - apply fire_keeps.
  - unfold sweep. keeps_tac.
  - keeps_tac.
Qed.

Lemma run_keeps evs st : keeps st (run evs st).
Proof.
  revert st. induction evs as [|ev evs IH]; intros st; [apply keeps_refl|].
  cbn [run foldl]. eapply keeps_trans; [apply step_keeps|apply IH].
Qed.


(** Nothing extends a session's life: when the clock is more than the TTL
    past the creation time of a record, whatever was submitted or decided in
    between, the sweep leaves that record under no id. *)
Theorem sweep_reclaims_after_ttl evs st l s :
  heap st !! l = Some s →
  TTL < clock (run evs st) - createdAt s →
  ∀ k s', session_at (sweep (run evs st)) k ≠ Some (l, s').
Proof.
  intros Hl Hold k s' Hs'. rewrite session_at_sweep in Hs'.
  destruct (session_at (run evs st) k) as [[l1 s1]|] eqn:Hs1; [|done].
  case_decide as Hage; [done|]. simplify_eq.
  apply session_at_Some in Hs1 as [_ Hl1].
  destruct (run_keeps evs st l s Hl) as (s2 & Hl2 & Hs2).
  unfold subject in Hs2. simplify_eq. lia.
Qed.

Lemma step_binding ev st k l s :
  enabled ev st = true →
  session_at st k = Some (l, s) →
  (ev = Sweep → clock st - createdAt s ≤ TTL) →
  sessions (step ev st) !! k = Some l.
Proof.
  intros Hen [Hk Hl]%session_at_Some Hsw.
  destruct ev as [body ip uuid|q|i sent|i| |d]; cbn [step].
  - apply enabled_PostApi in Hen as [Hfresh _].
    rewrite sessions_api_post; [done|].
    destruct body; cbn; try done. intros [= ->]. congruence.
  - by rewrite sessions_webhook.
  - by rewrite sessions_resume.
  - by rewrite sessions_fire.
  - rewrite sweep_lookup, Hk, Hl. rewrite decide_False; [done|].
    specialize (Hsw eq_refl). lia.
  - done.
Qed.

(** A session stays in the store, under its id and with its subject, for
    at least the TTL: along any admissible sequence of events that ends no
    later than 30 minutes after its creation, it is still there. *)
Theorem session_lives_at_least_ttl evs st k l s :
  session_at st k = Some (l, s) →
  valid evs st = true →
  clock (run evs st) - createdAt s ≤ TTL →
  ∃ s', session_at (run evs st) k = Some (l, s') ∧ subject s' = subject s.
Proof.
  revert st s. induction evs as [|ev evs IH]; intros st s Hs Hv Hage.
  { exists s. done. }
  cbn [valid] in Hv. apply andb_true_iff in Hv as [Hen Hv].
  cbn [run foldl] in *.
  pose proof (clock_run _ _ Hv) as Hmono. unfold run in Hmono.
  pose proof (clock_step _ _ Hen) as Hmono1.
  assert (sessions (step ev st) !! k = Some l) as Hk.
  { eapply step_binding; [done|done|]. intros _. lia. }
  pose proof Hs as [_ Hl]%session_at_Some.
  destruct (step_keeps ev st l s Hl) as (s1 & Hl1 & Hs1).
  assert (session_at (step ev st) k = Some (l, s1)) as Hs1' by by apply session_at_Some.
  destruct (IH (step ev st) s1 Hs1' Hv) as (s' & Hs' & Hsub).
  { unfold subject in Hs1. simplify_eq. unfold run in *. lia. }
  exists s'. split; [done|congruence].
Qed.
End lifetimes.

Section listing_and_transport.
Implicit Types (st : Server) (l : loc) (s : Session) (k : string).

Lemma entries_resolved st :
  consistent st →
  length (entries st) = size (sessions st) ∧ (entries st).*1 = (map_to_list (sessions st)).*1.
Proof.
  intros Hst. unfold entries. rewrite <-length_map_to_list.
  assert (Forall (λ e : string * nat, is_Some (heap st !! e.2)) (map_to_list (sessions st)))
    as Hall.
  { apply Forall_forall. intros [k l] Hin. apply elem_of_map_to_list in Hin.
    apply lookup_lt_is_Some. by eapply (refs_bound _ Hst). }
  induction Hall as [|e es [s He] _ [IH1 IH2]]; [done|].
  cbn. rewrite He. cbn. by rewrite IH1, IH2.
Qed.

(** On a request with the right secret, the admin listing has one row per
    session of the store: its count is the number of ids in the store and
    no id is listed twice. *)
Theorem admin_listing_counts_sessions t0 evs query header env :
  let st := run evs (init t0) in
  valid evs (init t0) = true →
  js_or query header = js_or env (Some DEFAULT_ADMIN_SECRET) →
  ∃ rows, admin_sessions query header env st = JsonSessions (size (sessions st)) rows ∧
          length rows = size (sessions st) ∧
          NoDup (view_sessionId <$> rows).
Proof.
  intros st Hv Hsecret. pose proof (reachable_consistent _ _ Hv) as Hst.
  destruct (entries_resolved _ Hst) as [Hlen Hids]. fold st in Hlen, Hids.
  exists (view <$> entries st). unfold admin_sessions.
  rewrite decide_True by done. rewrite length_fmap, Hlen.
  split; [done|]. split; [done|].
  rewrite <-list_fmap_compose.
  change (view_sessionId ∘ view) with (fst : string * Session → string).
  rewrite Hids. apply NoDup_fst_map_to_list.
Qed.

Lemma fmap_alter_absorb {A B} (g : A → B) (f : A → A) (h : list A) i :
  (∀ x, g (f x) = g x) → g <$> alter f i h = g <$> h.
Proof.
  intros Hgf. rewrite (list_fmap_alter g f id).
  - apply list_eq. intros j. rewrite list_lookup_alter.
    case_decide; [|done]. subst. by destruct ((g <$> h) !! j).
  - apply Forall_forall. intros x _. apply Hgf.
Qed.

Lemma fmap_alter_commute {A B} (g : A → B) (f : A → A) (f' : B → B) (h : list A) i :
  (∀ x, g (f x) = f' (g x)) → g <$> alter f i h = alter f' i (g <$> h).
Proof.
  intros Hgf. apply list_fmap_alter, Forall_forall. intros x _. apply Hgf.
Qed.

Lemma resume_ignores_sent i sent st :
  let a := resume i sent st in
  let b := resume i None st in
  a.1 = b.1 ∧ sessions a.2 = sessions b.2 ∧ timers a.2 = timers b.2 ∧
  awaiting a.2 = awaiting b.2 ∧ clock a.2 = clock b.2 ∧
  forget_handles <$> heap a.2 = forget_handles <$> heap b.2.
Proof.
  cbv zeta. unfold resume.
  destruct (awaiting st !! i) as [c|]; [|done].
  destruct c as [l sid|l|l| |sid|sid]; destruct sent as [m|]; cbn [fst snd]; try done.
  - repeat split. cbn [write heap]. by apply fmap_alter_absorb.
  - repeat split. cbn [write heap].
    rewrite !(fmap_alter_commute forget_handles (set_status "otp_pending")
                (set_status "otp_pending")) by done.
    f_equal. by apply fmap_alter_absorb.
Qed.

(** What the Telegram call returns decides nothing but the stored message
    handles: the response to the client, the ids in the store, and every
    record apart from its [msgId] and [otpMsgId] are the same whether the
    alert was delivered or the call failed. *)
Theorem transport_result_only_sets_handles body ip uuid sent st :
  let a := handle_api body ip uuid sent st in
  let b := handle_api body ip uuid None st in
  a.1 = b.1 ∧ sessions a.2 = sessions b.2 ∧ timers a.2 = timers b.2 ∧
  awaiting a.2 = awaiting b.2 ∧ clock a.2 = clock b.2 ∧
  forget_handles <$> heap a.2 = forget_handles <$> heap b.2.
Proof.
  cbv zeta. unfold handle_api.
  destruct (api_post body ip uuid st) as [[r|] st1]; [done|].
  apply resume_ignores_sent.
Qed.
End listing_and_transport.

Section retry.
Implicit Types (st : Server) (l : loc) (s : Session) (k : string).

Lemma handle_webhook_wrong_pin st data sid rest l s :
  split data = "wrong_pin" :: sid :: rest →
  session_at st sid = Some (l, s) → status s = "pending" →
  handle_webhook (Some data) st =
  (Some WrongPinSent, setTimeout 2000 sid (write l (set_status "wrong_pin") st)).
Proof.
  intros Hd Hs Hp. unfold handle_webhook.
  rewrite (webhook_wrong_pin _ _ _ _ _ _ Hd Hs Hp).
  set (st1 := write l (set_status "wrong_pin") st).
  change (length (awaiting st)) with (length (awaiting st1)).
  rewrite resume_parked. cbn [snd]. by rewrite resume_parked.
Qed.

Lemma handle_webhook_consistent q st :
  consistent st → consistent (handle_webhook q st).2.
Proof.
  intros Hst. unfold handle_webhook.
  pose proof (webhook_consistent q st Hst) as H1.
  destruct (webhook q st) as [ack st1]. cbn [snd] in *.
  by apply resume_consistent, resume_consistent.
Qed.

(** Retrying a login after a wrong-PIN rejection.  While the revert is
    pending, a login that carries the rejected session's id does not reuse
    it: it opens a new session under a new id, and the rejected one stays
    'wrong_pin' with its old PIN.  Once the delay has passed and the revert
    has fired, the same request reuses the session: same id, new PIN,
    'pending', and no session is added. *)
Theorem retry_after_wrong_pin t0 evs data sid rest l s fn ln ph pn ip uuid sent d :
  let st := run evs (init t0) in
  let st1 := (handle_webhook (Some data) st).2 in
  let during := handle_api (login_attempt fn ln ph pn (Some sid)) ip uuid sent st1 in
  let st2 := fire (length (timers st)) (advance d st1) in
  let after := handle_api (login_attempt fn ln ph pn (Some sid)) ip uuid sent st2 in
  valid evs (init t0) = true →
  split data = "wrong_pin" :: sid :: rest →
  session_at st sid = Some (l, s) → status s = "pending" →
  sid ≠ "" → sid ≠ uuid → 2000 ≤ d →
  (during.1 = Some (JsonSession uuid) ∧
   session_at during.2 sid = Some (l, set_status "wrong_pin" s)) ∧
  enabled (Fire (length (timers st))) (advance d st1) = true ∧
  (after.1 = Some (JsonSession sid) ∧
   sessions after.2 = sessions st ∧
   ∃ s', session_at after.2 sid = Some (l, s') ∧ status s' = "pending" ∧ pin s' = pn).
Proof.
  intros st st1 during st2 after Hv Hd Hs Hp Hne Hu Hdelay.
  pose proof (reachable_consistent _ _ Hv) as Hst. fold st in Hst.
  pose proof (handle_webhook_consistent (Some data) st Hst) as Hst1. fold st1 in Hst1.
  assert (st1 = setTimeout 2000 sid (write l (set_status "wrong_pin") st)) as Est1.
  { subst st1. by rewrite (handle_webhook_wrong_pin _ _ _ _ _ _ Hd Hs Hp). }
  assert (session_at st1 sid = Some (l, set_status "wrong_pin" s)) as Hs1.
  { rewrite Est1. by apply (session_at_write_eq st). }
  split; [|split].
  - subst during. rewrite handle_api_login_create.
    + cbn [fst snd]. split; [done|]. by rewrite bind_new_frame.
    + intros (_ & l' & s' & Hs' & Hp'). cbn in Hs'. rewrite Hs1 in Hs'. by simplify_eq.
  - cbn [enabled]. rewrite Est1. cbn [advance setTimeout write timers clock].
    rewrite list_lookup_middle by done. apply bool_decide_eq_true. lia.
  - assert (st2 = write l (set_status "pending")
                    (with_timers (timers st) (advance d (write l (set_status "wrong_pin") st))))
      as Est2.
    { subst st2. rewrite Est1. unfold fire.
      cbn [advance setTimeout write timers].
      rewrite list_lookup_middle by done.
      rewrite (delete_middle _ []), app_nil_r. unfold revert.
      match goal with |- context [session_at ?x sid] =>
        assert (session_at x sid = Some (l, set_status "wrong_pin" s)) as ->
          by (by apply (session_at_write_eq st))
      end. done. }
    assert (session_at st2 sid = Some (l, set_status "pending" (set_status "wrong_pin" s)))
      as Hs2.
    { rewrite Est2. apply session_at_write_eq. by apply (session_at_write_eq st). }
    subst after. unfold handle_api.
    rewrite (api_post_login_resubmit _ _ _ _ _ _ _ _ _ _ Hs2 Hne eq_refl).
    replace (length (awaiting st2))
      with (length (awaiting (write l (set_pin pn) st2))) by done.
    rewrite resume_parked. cbn [fst snd]. split; [done|]. split.
    + rewrite Est2. by destruct sent.
    + destruct sent as [m|]; eexists;
        (split; [rewrite !session_at_write, Hs2; cbn; by rewrite !decide_True|done]).
Qed.
End retry.

Section manual_override.
Implicit Types (st : Server) (l : loc) (s : Session) (k : string).


End manual_override.

(** * The theorems at concrete histories *)

Lemma end_to_end_reaches_continue_witness :
  colon_free demo_id = true ∧
  end_to_end (init 0) (Some "Awa") (Some "Diop") (Some "771234567") (Some "1234")
    "41.82.0.1" demo_id (Some "54321") (Some "12345") (Some 11) (Some 12) None =
  [JsonStatus "pending"; JsonStatus "approved"; JsonStatus "otp_pending";
   JsonStatus "wrong_code"; JsonStatus "otp_pending"; JsonStatus "otp_pending";
   JsonStatus "continue"].
Proof.
  split; [reflexivity|].
  apply (end_to_end_reaches_continue (init 0)). reflexivity.
Defined.

Lemma resubmission_overwrites_pending_secret_witness :
  let st := run demo_login (init 0) in
  let st' := run (demo_login ++ [PostWebhook (Some ("approve::" +:+ demo_id))] ++ demo_otp)
               (init 0) in
  (∃ s', session_at
           (handle_api (login_attempt None None None (Some "4321") (Some demo_id))
              "41.82.0.1" "" None st).2 demo_id = Some (0%nat, s') ∧
         pin s' = Some "4321" ∧ status s' = "pending") ∧
  (∃ s', session_at
           (handle_api (otp_entered (Some demo_id) (Some "12345")) "41.82.0.1" "" None st').2
           demo_id = Some (0%nat, s') ∧
         otp s' = Some "12345" ∧ status s' = "otp_pending").
Proof.
  cbv zeta. split.
  - destruct (resubmission_overwrites_pending_secret
                (run demo_login (init 0)) demo_id 0%nat demo_session) as [Hpin _];
      [vm_compute; reflexivity|].
    destruct (Hpin ltac:(done) ltac:(reflexivity) None None None (Some "4321")
                "41.82.0.1" "" None) as (_ & _ & s' & Hs' & Hp & Hst & _).
    exists s'. by repeat split.
  - destruct (resubmission_overwrites_pending_secret
                (run (demo_login ++ [PostWebhook (Some ("approve::" +:+ demo_id))] ++ demo_otp)
                   (init 0))
                demo_id 0%nat
                (set_otpMsgId (Some 12) (set_otp (Some "54321") 0
                   (set_status "otp_pending" demo_session)))) as [_ Hotp];
      [vm_compute; reflexivity|].
    destruct (Hotp ltac:(reflexivity) (Some "12345") "41.82.0.1" "" None)
      as (_ & _ & s' & Hs' & Ho & Hst & _).
    exists s'. by repeat split.
Defined.

Lemma otp_entered_forces_otp_pending_witness :
  let st := run otp_rejected (init 0) in
  let out := handle_api (otp_entered (Some demo_id) (Some "12345")) "41.82.0.1" "" None st in
  api_get (Some "check_status") (Some demo_id) st = JsonStatus "wrong_code" ∧
  out.1 = Some JsonOk ∧
  ∃ s', session_at out.2 demo_id = Some (0%nat, s') ∧
        status s' = "otp_pending" ∧ otp s' = Some "12345".
Proof.
  cbv zeta. split; [vm_compute; reflexivity|].
  apply (otp_entered_forces_otp_pending (run otp_rejected (init 0)) (Some demo_id)
           (Some "12345") "41.82.0.1" "" None 0%nat
           (set_status "wrong_code"
              (set_otpMsgId (Some 12) (set_otp (Some "54321") 0
                 (set_status "otp_pending" demo_session))))).
  vm_compute. reflexivity.
Defined.

Lemma wrong_pin_visible_until_delay_witness :
  let st := run demo_login (init 0) in
  let out := webhook (Some ("wrong_pin::" +:+ demo_id)) st in
  let later := [Resume 0 None; Tick 1000; Resume 0 None; Tick 999; Sweep] in
  valid demo_login (init 0) = true ∧
  valid later out.2 = true ∧
  clock (run later out.2) = 1999 ∧
  api_get (Some "check_status") (Some demo_id) out.2 = JsonStatus "wrong_pin" ∧
  api_get (Some "check_status") (Some demo_id) (run later out.2) ≠ JsonStatus "pending".
Proof.
  cbv zeta.
  destruct (wrong_pin_visible_until_delay 0 demo_login ("wrong_pin::" +:+ demo_id)
              demo_id [] 0%nat demo_session) as (_ & Hnow & Hheld & _);
    [vm_compute; reflexivity ..|].
  split; [vm_compute; reflexivity|]. split; [vm_compute; reflexivity|].
  split; [vm_compute; reflexivity|]. split; [exact Hnow|].
  apply Hheld; vm_compute; reflexivity.
Defined.

Lemma login_decision_at_most_once_witness :
  let st := run otp_rejected (init 0) in
  webhook (Some ("approve::" +:+ demo_id)) st = (Some AlreadyActioned, st) ∧
  handle_webhook (Some ("wrong_pin::" +:+ demo_id)) st = (Some AlreadyActioned, st).
Proof.
  cbv zeta. split.
  - apply (login_decision_at_most_once (run otp_rejected (init 0))
             ("approve::" +:+ demo_id) "approve" demo_id [] 0%nat
             (set_status "wrong_code"
                (set_otpMsgId (Some 12) (set_otp (Some "54321") 0
                   (set_status "otp_pending" demo_session)))));
      [vm_compute; reflexivity|by left|vm_compute; reflexivity|done].
  - apply (login_decision_at_most_once (run otp_rejected (init 0))
             ("wrong_pin::" +:+ demo_id) "wrong_pin" demo_id [] 0%nat
             (set_status "wrong_code"
                (set_otpMsgId (Some 12) (set_otp (Some "54321") 0
                   (set_status "otp_pending" demo_session)))));
      [vm_compute; reflexivity|by right|vm_compute; reflexivity|done].
Defined.

Lemma revert_skips_evicted_session_witness :
  let st := run (approved_during_delay ++ [Tick 1800000; Sweep]) (init 0) in
  timers st = [(2000, demo_id)] ∧
  session_at st demo_id = None ∧
  fire 0 st = with_timers [] st.
Proof.
  cbv zeta. split; [vm_compute; reflexivity|]. split; [vm_compute; reflexivity|].
  apply (revert_skips_evicted_session
           (run (approved_during_delay ++ [Tick 1800000; Sweep]) (init 0))
           0%nat 2000 demo_id); vm_compute; reflexivity.
Defined.

Lemma login_decision_single_winner_witness :
  let st := run demo_login (init 0) in
  let first := webhook (Some ("wrong_pin::" +:+ demo_id)) st in
  first.1 = Some WrongPinSent ∧
  webhook (Some ("approve::" +:+ demo_id)) first.2 = (Some AlreadyActioned, first.2).
Proof.
  cbv zeta.
  destruct (login_decision_single_winner (run demo_login (init 0))
              ("wrong_pin::" +:+ demo_id) ("approve::" +:+ demo_id)
              "wrong_pin" "approve" demo_id [] [] 0%nat demo_session)
    as (_ & _ & Hsecond); [vm_compute; reflexivity| vm_compute; reflexivity
                          | by right | by left | vm_compute; reflexivity | done |].
  split; [vm_compute; reflexivity | exact Hsecond].
Defined.

Lemma login_opens_new_session_witness :
  let st := run pin_rejected (init 0) in
  let out := handle_api (login_attempt None None (Some "771234567") (Some "4321")
                           (Some demo_id)) "41.82.0.1" second_id None st in
  valid pin_rejected (init 0) = true ∧
  out.1 = Some (JsonSession second_id) ∧
  session_at out.2 second_id =
    Some (1%nat, mkSession "Unknown" "User" (Some "771234567") (Some "4321")
                   "pending" 0 "41.82.0.1" None None None None) ∧
  session_at out.2 demo_id = session_at st demo_id.
Proof.
  cbv zeta.
  destruct (login_opens_new_session 0 pin_rejected None None (Some "771234567")
              (Some "4321") (Some demo_id) "41.82.0.1" second_id None)
    as (Hr & Hnew & Hframe).
  - vm_compute. reflexivity.
  - intros (_ & l & s & Hs & Hp). vm_compute in Hs. by simplify_eq.
  - split; [vm_compute; reflexivity|]. split; [exact Hr|]. split; [exact Hnew|].
    apply Hframe. by vm_compute.
Defined.


Lemma resend_and_reset_force_otp_pending_witness :
  let st := run (otp_rejected ++ [PostWebhook (Some ("approve_otp::" +:+ demo_id))]) (init 0) in
  let out := handle_api (reset_otp (Some demo_id)) "41.82.0.1" second_id None st in
  api_get (Some "check_status") (Some demo_id) st = JsonStatus "continue" ∧
  out.1 = Some JsonOk ∧
  api_get (Some "check_status") (Some demo_id) out.2 = JsonStatus "otp_pending".
Proof.
  cbv zeta. split; [vm_compute; reflexivity|].
  destruct (resend_and_reset_force_otp_pending
              (run (otp_rejected ++ [PostWebhook (Some ("approve_otp::" +:+ demo_id))]) (init 0))
              (Some demo_id) 0%nat
              (set_status "continue"
                 (set_status "wrong_code"
                    (set_otpMsgId (Some 12) (set_otp (Some "54321") 0
                       (set_status "otp_pending" demo_session)))))
              "41.82.0.1" second_id None (reset_otp (Some demo_id)))
    as (Hr & Hst & Hs).
  - vm_compute. reflexivity.
  - by right.
  - split; [exact Hr|]. rewrite Hst. vm_compute. reflexivity.
Defined.


Lemma decision_touches_named_session_only_witness :
  let st := run (demo_login
                 ++ [PostApi (login_attempt None None None None None) "41.82.0.2" second_id;
                     Resume 0 None]) (init 0) in
  session_at (handle_webhook (Some ("approve::" +:+ second_id)) st).2 demo_id
  = session_at st demo_id.
Proof.
  cbv zeta.
  destruct (decision_touches_named_session_only 0
              (demo_login
               ++ [PostApi (login_attempt None None None None None) "41.82.0.2" second_id;
                   Resume 0 None]) demo_id) as [Hw _].
  - vm_compute. reflexivity.
  - apply Hw. by vm_compute.
Defined.


Lemma sweep_reclaims_after_ttl_witness :
  let st := run demo_login (init 0) in
  clock (run [Tick 1800001] st) = 1800001 ∧
  ∀ k s', session_at (sweep (run [Tick 1800001] st)) k ≠ Some (0%nat, s').
Proof.
  cbv zeta. split; [vm_compute; reflexivity|].
  apply (sweep_reclaims_after_ttl [Tick 1800001] (run demo_login (init 0)) 0%nat demo_session).
  - vm_compute. reflexivity.
  - vm_compute. reflexivity.
Defined.

Lemma session_lives_at_least_ttl_witness :
  let st := run demo_login (init 0) in
  ∃ s', session_at (run [Tick 900000; Sweep; Tick 900000; Sweep] st) demo_id
        = Some (0%nat, s') ∧ subject s' = subject demo_session.
Proof.
  cbv zeta.
  apply (session_lives_at_least_ttl [Tick 900000; Sweep; Tick 900000; Sweep]
           (run demo_login (init 0)) demo_id 0%nat demo_session).
  - vm_compute. reflexivity.
  - vm_compute. reflexivity.
  - vm_compute. discriminate.
Defined.

Lemma admin_listing_counts_sessions_witness :
  ∃ rows, admin_sessions (Some "wavesmart2026") None None (run demo_login (init 0))
          = JsonSessions 1 rows ∧ length rows = 1%nat.
Proof.
  destruct (admin_listing_counts_sessions 0 demo_login (Some "wavesmart2026") None None)
    as (rows & Hr & Hlen & _).
  - vm_compute. reflexivity.
  - vm_compute. reflexivity.
  - exists rows. split; [exact Hr|exact Hlen].
Defined.

Lemma retry_after_wrong_pin_witness :
  let st := run demo_login (init 0) in
  let st1 := (handle_webhook (Some ("wrong_pin::" +:+ demo_id)) st).2 in
  let retry := login_attempt None None (Some "771234567") (Some "4321") (Some demo_id) in
  (handle_api retry "41.82.0.1" second_id None st1).1 = Some (JsonSession second_id) ∧
  (handle_api retry "41.82.0.1" second_id None (fire 0 (advance 2000 st1))).1
  = Some (JsonSession demo_id).
Proof.
  cbv zeta.
  destruct (retry_after_wrong_pin 0 demo_login ("wrong_pin::" +:+ demo_id) demo_id []
              0%nat demo_session None None (Some "771234567") (Some "4321")
              "41.82.0.1" second_id None 2000)
    as ((Hduring & _) & _ & (Hafter & _)).
  - vm_compute. reflexivity.
  - vm_compute. reflexivity.
  - vm_compute. reflexivity.
  - reflexivity.
  - by vm_compute.
  - by vm_compute.
  - lia.
  - split; [exact Hduring|exact Hafter].
Defined.
